(** * dash-restful: the request pipeline of [DashApi.ts], embedded in Rocq

  The development follows [src/lib/DashApi.ts] (with [middlewares.ts] and
  the middlewares of the test-suite):

  - [Obj]: plain JavaScript objects as ordered property lists;
  - [urlParams], [encodeURIComponent]: the query encoder;
  - [DashAPI]: constructor, [getUrl], [addMiddleware], [request] and the
    verb shortcuts;
  - [DashResource]: the REST facade.

  Modelling conventions.
  - A JavaScript string is represented by the UTF-8 bytes of its text, as
    a Rocq [string]; on well-formed text [encodeURIComponent] escapes
    exactly the bytes outside its unreserved set.
  - A [number] is an integer ([Z]); its [String(..)] form is the decimal
    numeral.
  - An object whose key order is observable ([HttpParams], form bodies)
    is a property list in [Object.keys] order; [RequestInit] and header
    records, whose order is not observable, are [gmap]s.
  - A promise is represented by the state it ends in. *)

From Stdlib Require Import ZArith String Ascii List Lia DecimalString.
From stdpp Require Import base option list strings gmap.

Open Scope string_scope.
Open Scope list_scope.
Open Scope Z_scope.

(** ** JavaScript objects with observable key order

    A property list holds the own enumerable string-keyed properties of an
    object in the order [Object.keys] lists them, which is the order of
    definition for keys that are ordinary names. (Keys that are array
    indices, which JavaScript lists first and in numeric order, are not
    modelled apart.) *)

Module Obj.
Section WithValues.
Context {V : Type}.

Definition t := list (string * V).

(** [Object.keys(o)] *)
Definition keys (o : t) : list string := map fst o.

(** [o[k]]; [None] stands for a missing property *)
Fixpoint get (k : string) (o : t) : option V :=
  match o with
  | [] => None
  | (k', v) :: o' => if String.eqb k' k then Some v else get k o'
  end.

(** [o[k] = v]: an existing property keeps its place, a new one goes
    last. This is the order of JavaScript for a new key that is an
    ordinary name, and for any new key added in [Object.keys] order of
    the object it is copied from, as [urlParams] does; a new array-index
    key ([1], [42]) added otherwise is listed by JavaScript before the
    names, and here it is not. *)
Fixpoint set (k : string) (v : V) (o : t) : t :=
  match o with
  | [] => [(k, v)]
  | (k', v') :: o' =>
      if String.eqb k' k then (k', v) :: o' else (k', v') :: set k v o'
  end.

(** [{...target, ...src}]: the properties of [src] are copied in order *)
Definition spread (target src : t) : t :=
  fold_left (fun acc kv => set (fst kv) (snd kv) acc) src target.

(** An object has each key once. *)
Definition wf (o : t) : Prop := NoDup (keys o).

End WithValues.
Arguments t : clear implicits.
End Obj.

(** ** Strings *)

(** [xs.join(sep)] is [String.concat sep xs]. *)

(** [s.split(sep)] for a one-character separator: the pieces between the
    occurrences of [sep], always at least one piece. *)
Fixpoint split (sep : ascii) (s : string) : list string :=
  match s with
  | "" => [""]
  | String c s' =>
      if Ascii.eqb c sep then "" :: split sep s'
      else match split sep s' with
           | [] => [String c ""]
           | p :: ps => String c p :: ps
           end
  end.

(** [s.endsWith("/")] *)
Fixpoint endsWith_slash (s : string) : bool :=
  match s with
  | "" => false
  | String c "" => Ascii.eqb c "/"
  | String _ s' => endsWith_slash s'
  end.

(** [s.slice(0, -1)]: all but the last character *)
Fixpoint slice_0_m1 (s : string) : string :=
  match s with
  | "" => ""
  | String _ "" => ""
  | String c s' => String c (slice_0_m1 s')
  end.

(** [String(n)] for a number: the decimal numeral, which is what
    JavaScript prints for an integer of magnitude below 10^21. (Larger
    numbers, fractions and NaN are not modelled.) *)
Definition String_number (n : Z) : string :=
  NilZero.string_of_int (Z.to_int n).

(** ** [encodeURIComponent] and [decodeURIComponent] *)

(** The characters [encodeURIComponent] leaves alone:
    [A-Z a-z 0-9 - _ . ! ~ * ' ( )]. *)
Definition is_unreserved (c : ascii) : bool :=
  let n := N_of_ascii c in
  ((65 <=? n) && (n <=? 90) || (97 <=? n) && (n <=? 122)
   || (48 <=? n) && (n <=? 57))%N
  || existsb (Ascii.eqb c) ["-"; "_"; "."; "!"; "~"; "*"; "'"; "("; ")"]%char.

Definition hex_digit (n : N) : ascii :=
  match n with
  | 0 => "0" | 1 => "1" | 2 => "2" | 3 => "3" | 4 => "4" | 5 => "5"
  | 6 => "6" | 7 => "7" | 8 => "8" | 9 => "9" | 10 => "A" | 11 => "B"
  | 12 => "C" | 13 => "D" | 14 => "E" | _ => "F"
  end%N%char.

Definition hex_value (c : ascii) : option N :=
  let n := N_of_ascii c in
  (if (48 <=? n) && (n <=? 57) then Some (n - 48)
   else if (65 <=? n) && (n <=? 70) then Some (n - 55)
   else if (97 <=? n) && (n <=? 102) then Some (n - 87)
   else None)%N.

(** [%XX], upper-case hexadecimal, for one byte *)
Definition percent_escape (c : ascii) : string :=
  let n := N_of_ascii c in
  String "%"
    (String (hex_digit (n / 16)%N) (String (hex_digit (n mod 16)%N) "")).

Definition encode_byte (c : ascii) : string :=
  if is_unreserved c then String c "" else percent_escape c.

Fixpoint encodeURIComponent (s : string) : string :=
  match s with
  | "" => ""
  | String c s' => encode_byte c +:+ encodeURIComponent s'
  end.

(** [None] stands for the [URIError] of a malformed escape. *)
Fixpoint decodeURIComponent (s : string) : option string :=
  match s with
  | "" => Some ""
  | String c s' =>
      if Ascii.eqb c "%" then
        match s' with
        | String h (String l s'') =>
            match hex_value h, hex_value l, decodeURIComponent s'' with
            | Some x, Some y, Some r =>
                Some (String (ascii_of_N (16 * x + y)%N) r)
            | _, _, _ => None
            end
        | _ => None
        end
      else option_map (String c) (decodeURIComponent s')
  end.

(** [s.includes(c)] for one character *)
Fixpoint contains (c : ascii) (s : string) : bool :=
  match s with
  | "" => false
  | String a s' => Ascii.eqb a c || contains c s'
  end.

(** ** [HttpParams] and [urlParams] *)

(** [number | string] *)
Inductive Scalar :=
  | Num (n : Z)
  | Str (s : string).

(** [number | string | Array<number | string> | undefined | null] *)
Inductive ParamValue :=
  | PNull
  | PUndefined
  | PScalar (x : Scalar)
  | PArray (xs : list Scalar).

Definition HttpParams := Obj.t ParamValue.

Definition String_scalar (x : Scalar) : string :=
  match x with
  | Num n => String_number n
  | Str s => s
  end.

(** [String(v)] *)
Definition String_value (v : ParamValue) : string :=
  match v with
  | PNull => "null"
  | PUndefined => "undefined"
  | PScalar x => String_scalar x
  | PArray xs => String.concat "," (map String_scalar xs)
  end.

(** [params[k]] *)
Definition param_read (k : string) (params : HttpParams) : ParamValue :=
  match Obj.get k params with
  | Some v => v
  | None => PUndefined
  end.

(** [v === null || v === '' || typeof v === 'undefined'] *)
Definition is_empty_param (v : ParamValue) : bool :=
  match v with
  | PNull | PUndefined | PScalar (Str "") => true
  | _ => false
  end.

(** The reducer of [urlParams]. *)
Definition concat_step (params : HttpParams) (acc : Obj.t string) (k : string)
  : Obj.t string :=
  let v := param_read k params in
  if is_empty_param v then acc
  else
    let vs := match v with
              | PArray xs => map String_scalar xs
              | _ => [String_value v]
              end in
    Obj.set k (String.concat "," vs) (Obj.spread [] acc).

Definition concatedParams (params : HttpParams) : Obj.t string :=
  fold_left (concat_step params) (Obj.keys params) [].

(** [`${encodeURIComponent(k)}=${encodeURIComponent(v)}`] *)
Definition encode_pair (k v : string) : string :=
  encodeURIComponent k +:+ "=" +:+ encodeURIComponent v.

Definition urlParams (params : HttpParams) : string :=
  let concatedParams := concatedParams params in
  String.concat "&"
    (map (fun k =>
            let v := match Obj.get k concatedParams with
                     | Some v => v
                     | None => "undefined"
                     end in
            encode_pair k v)
         (Obj.keys concatedParams)).

(** *** The encoder as the specification words it

    Section 4.1: skip null, undefined and the empty string; join a sequence
    with [,], stringify a scalar; percent-encode key and value around [=];
    join the pairs with [&]. *)

Definition joined_value (v : ParamValue) : option string :=
  match v with
  | PNull | PUndefined => None
  | PScalar (Str "") => None
  | PScalar x => Some (String_scalar x)
  | PArray xs => Some (String.concat "," (map String_scalar xs))
  end.

Definition filtered_joined (params : HttpParams) : list (string * string) :=
  omap (fun kv => pair (fst kv) <$> joined_value (snd kv)) params.

Definition encode_spec (params : HttpParams) : string :=
  String.concat "&"
    (map (fun kv => encode_pair (fst kv) (snd kv)) (filtered_joined params)).

(** Re-parsing a query string: split on [&], each pair on [=], and
    percent-decode; the empty query string has no pair. *)
Definition parse_pair (p : string) : option (string * string) :=
  match split "=" p with
  | [k; v] =>
      match decodeURIComponent k, decodeURIComponent v with
      | Some k', Some v' => Some (k', v')
      | _, _ => None
      end
  | _ => None
  end.

Fixpoint parse_pairs (ps : list string) : option (list (string * string)) :=
  match ps with
  | [] => Some []
  | p :: ps' =>
      match parse_pair p, parse_pairs ps' with
      | Some kv, Some r => Some (kv :: r)
      | _, _ => None
      end
  end.

Definition parse_query (qs : string) : option (list (string * string)) :=
  if String.eqb qs "" then Some [] else parse_pairs (split "&" qs).

(** The parameters of the test-suite. *)
Definition test_params : HttpParams :=
  [ ("a", PScalar (Num 1)); ("b", PScalar (Str "2"));
    ("c", PArray [Num 3; Num 4; Num 5]);
    ("d", PArray [Str "a"; Str "b"; Str "c"]);
    ("e", PNull); ("f", PUndefined); ("g", PScalar (Str ""));
    ("h+i", PScalar (Str "h+i")) ].

(** ** The runtime the client runs on

    [JSON.stringify] and the decoding behind [Response.json()] belong to
    the platform; the client passes JSON values through without looking
    inside them. *)
Class Runtime := {
  Json : Type;
  JSON_stringify : Json -> string;
  JSON_parse : string -> option Json
}.

(** A runtime for examples: a JSON value is represented by its text, and
    only the empty text fails to decode. *)
Definition text_runtime : Runtime :=
  {| Json := string;
     JSON_stringify := fun j => j;
     JSON_parse := fun s => if String.eqb s "" then None else Some s |}.

(** ** [DashApi.ts]: types *)

Record Blob := { blob_bytes : string; blob_type : string }.

(** A [FormData]: its entries in [append] order. *)
Inductive FormEntry :=
  | TextEntry (name value : string)
  | FileEntry (name : string) (file : Blob) (filename : string).

Definition FormData := list FormEntry.

(** [string | number | { file: Blob; filename: string }] *)
Inductive ApiRequestFormBodyValue :=
  | FormStr (s : string)
  | FormNum (n : Z)
  | FormFile (file : Blob) (filename : string).

Definition ApiRequestFormBody := Obj.t ApiRequestFormBodyValue.

(** A [Response], as far as [request] looks at it. *)
Record Response := { status : Z; body_text : string }.

(** [RequestInit]: [method], [mode], [credentials], ... are strings,
    [headers] is a record of strings, [body] a string or a [FormData]. *)
Inductive OptionValue :=
  | OStr (s : string)
  | OHeaders (h : gmap string string)
  | OForm (fd : FormData).

Abbreviation RequestInit := (gmap string OptionValue).

Module RequestData.
Record t := {
  path : string;
  params : option HttpParams;
  options : RequestInit
}.
End RequestData.
Abbreviation RequestData := RequestData.t.

Definition Middleware := RequestData -> RequestData.

(** What [fetch] is called with. *)
Record FetchCall := { call_url : string; call_options : RequestInit }.

Section Client.
Context `{Runtime}.

Record ApiRequestConfig := {
  cfg_params : option HttpParams;
  cfg_body : option Json;
  cfg_formBody : option ApiRequestFormBody;
  cfg_form : option bool
}.

(** Values a promise of [request] settles with. *)
Inductive Any :=
  | Undefined
  | OfJson (j : Json)
  | OfString (s : string)
  | OfResponse (r : Response)
  | SyntaxError.

(** A promise, by the state it ends in. *)
Inductive Promise (A : Type) :=
  | Resolved (a : A)
  | Rejected (reason : Any)
  | Pending.
Arguments Resolved {A} a.
Arguments Rejected {A} reason.
Arguments Pending {A}.

Definition is_rejected {A} (p : Promise A) : bool :=
  match p with Rejected _ => true | _ => false end.

(** [response.json()] *)
Definition Response_json (r : Response) : Promise Any :=
  match JSON_parse (body_text r) with
  | Some j => Resolved (OfJson j)
  | None => Rejected SyntaxError
  end.

Definition ErrorHandler := Response -> Promise Any.

Record ApiConfig := {
  errorHandler : option ErrorHandler;
  cfg_options : option RequestInit
}.

(** The transport: [fetch(url, options)]. *)
Definition Fetch := string -> RequestInit -> Promise Response.

(** One exchange with the transport: the call made and how the promise
    returned to the caller ends. *)
Record Exchange := { sent : FetchCall; outcome : Promise Any }.

(** ** [class DashAPI] *)

Record DashAPI := {
  baseUrl : string;
  config : option ApiConfig;
  middlewares : list Middleware
}.

(** [new DashAPI(baseUrl = '/api', config?)] *)
Definition DashAPI_new (baseUrl : option string) (config : option ApiConfig)
  : DashAPI :=
  let baseUrl := match baseUrl with Some b => b | None => "/api" end in
  {| (* trim trailing slash *)
     baseUrl := if endsWith_slash baseUrl then slice_0_m1 baseUrl else baseUrl;
     config := config;
     middlewares := [] |}.

Definition getUrl (this : DashAPI) (path : string) (params : option HttpParams)
  : string :=
  let qs := match params with
            | Some params => Some (urlParams params)
            | None => None
            end in
  (baseUrl this +:+ "/" +:+ path)
  +:+ match qs with
      | Some qs => if String.eqb qs "" then "" else "?" +:+ qs
      | None => ""
      end.

Definition addMiddleware (this : DashAPI) (middleware : Middleware) : DashAPI :=
  {| baseUrl := baseUrl this;
     config := config this;
     middlewares := middlewares this ++ [middleware] |}.

(** [this.config?.errorHandler] *)
Definition config_errorHandler (this : DashAPI) : option ErrorHandler :=
  match config this with
  | Some c => errorHandler c
  | None => None
  end.

(** [config?.params], [config?.body], [config?.formBody] *)
Definition config_params (config : option ApiRequestConfig)
  : option HttpParams :=
  match config with Some c => cfg_params c | None => None end.

Definition config_body (config : option ApiRequestConfig) : option Json :=
  match config with Some c => cfg_body c | None => None end.

Definition config_formBody (config : option ApiRequestConfig)
  : option ApiRequestFormBody :=
  match config with Some c => cfg_formBody c | None => None end.

(** [this.config?.options], spread into an object literal *)
Definition base_options (this : DashAPI) : RequestInit :=
  match config this with
  | Some c => match cfg_options c with Some o => o | None => ∅ end
  | None => ∅
  end.

(** One round of [Object.keys(formBody).forEach] *)
Definition append_field (formBody : ApiRequestFormBody) (formData : FormData)
  (key : string) : FormData :=
  match Obj.get key formBody with
  | Some (FormFile file filename) =>
      (* handle file upload *)
      formData ++ [FileEntry key file filename]
  | Some (FormStr s) => formData ++ [TextEntry key s]
  | Some (FormNum n) => formData ++ [TextEntry key (String_number n)]
  | None => formData ++ [TextEntry key "undefined"]
  end.

(** The options [request] has built when it reaches the middlewares. *)
Definition request_options (this : DashAPI) (method : string)
  (config : option ApiRequestConfig) : RequestInit :=
  let headers : gmap string string := ∅ in
  let options : RequestInit := <["method" := OStr method]> (base_options this) in
  let '(headers, options) :=
    match config_body config with
    | Some body =>
        (* Handle JSON post body *)
        (<["Content-Type" := "application/json"]> headers,
         <["body" := OStr (JSON_stringify body)]> options)
    | None =>
        match config_formBody config with
        | Some formBody =>
            (* Handle FormData post body *)
            let formData :=
              fold_left (append_field formBody) (Obj.keys formBody) [] in
            (headers, <["body" := OForm formData]> options)
        | None => (headers, options)
        end
    end in
  <["headers" := OHeaders headers]> options.

(** [this.middlewares.forEach(m => { requestData = m(requestData) })] *)
Fixpoint apply_middlewares (ms : list Middleware) (requestData : RequestData)
  : RequestData :=
  match ms with
  | [] => requestData
  | middleware :: ms' => apply_middlewares ms' (middleware requestData)
  end.

(** The status dispatch at the end of [request]. *)
Definition dispatch (this : DashAPI) (response : Response) : Promise Any :=
  if status response =? 204 then Resolved Undefined
  else if (200 <=? status response) && (status response <=? 299)
  then Response_json response
  else match config_errorHandler this with
       | Some handler => handler response
       | None => Rejected (OfResponse response)
       end.

Definition initial_requestData (this : DashAPI) (path method : string)
  (config : option ApiRequestConfig) : RequestData :=
  {| RequestData.path := path;
     RequestData.params := config_params config;
     RequestData.options := request_options this method config |}.

Definition request (this : DashAPI) (fetch : Fetch) (path method : string)
  (config : option ApiRequestConfig) : Exchange :=
  let requestData :=
    apply_middlewares (middlewares this)
      (initial_requestData this path method config) in
  (* Send request *)
  let call := {| call_url := getUrl this (RequestData.path requestData)
                               (RequestData.params requestData);
                 call_options := RequestData.options requestData |} in
  {| sent := call;
     outcome :=
       match fetch (call_url call) (call_options call) with
       | Resolved response => dispatch this response
       | Rejected reason => Rejected reason
       | Pending => Pending
       end |}.

(** The literal [{ params }] *)
Definition params_config (params : option HttpParams) : ApiRequestConfig :=
  {| cfg_params := params; cfg_body := None;
     cfg_formBody := None; cfg_form := None |}.

Definition get (this : DashAPI) (fetch : Fetch) (path : string)
  (params : option HttpParams) : Exchange :=
  request this fetch path "GET" (Some (params_config params)).

Definition post (this : DashAPI) (fetch : Fetch) (path : string) (body : Json)
  (params : option HttpParams) : Exchange :=
  request this fetch path "POST"
    (Some {| cfg_params := params; cfg_body := Some body;
             cfg_formBody := None; cfg_form := None |}).

Definition put (this : DashAPI) (fetch : Fetch) (path : string) (body : Json)
  (params : option HttpParams) : Exchange :=
  request this fetch path "PUT"
    (Some {| cfg_params := params; cfg_body := Some body;
             cfg_formBody := None; cfg_form := None |}).

Definition patch (this : DashAPI) (fetch : Fetch) (path : string) (body : Json)
  (params : option HttpParams) : Exchange :=
  request this fetch path "PATCH"
    (Some {| cfg_params := params; cfg_body := Some body;
             cfg_formBody := None; cfg_form := None |}).

Definition delete (this : DashAPI) (fetch : Fetch) (path : string)
  (params : option HttpParams) : Exchange :=
  request this fetch path "DELETE" (Some (params_config params)).

Definition postForm (this : DashAPI) (fetch : Fetch) (path : string)
  (formBody : ApiRequestFormBody) (params : option HttpParams) : Exchange :=
  request this fetch path "POST"
    (Some {| cfg_params := params; cfg_body := None;
             cfg_formBody := Some formBody; cfg_form := None |}).

(** ** [class DashResource]

    A resource keeps a reference to its client; the client is passed to
    each method in the state it has when the method is called. *)

Record DashResource := {
  name : string;
  res_params : option HttpParams
}.

Definition createResource (name : string) (params : option HttpParams)
  : DashResource :=
  {| name := name; res_params := params |}.

(** [params ?? {}] *)
Definition or_empty (params : option HttpParams) : HttpParams :=
  match params with
  | Some p => p
  | None => []
  end.

(** [{ ...(this.params ?? {}), ...(params ?? {}) }]. The values found
    under each key are those of JavaScript; the order of the keys is, too,
    unless a key the caller adds is an array index (see [Obj.set]). *)
Definition mergeParams (this : DashResource) (params : option HttpParams)
  : HttpParams :=
  Obj.spread (Obj.spread [] (or_empty (res_params this))) (or_empty params).

Definition list_ (this : DashResource) (api : DashAPI) (fetch : Fetch)
  (params : option HttpParams) : Exchange :=
  get api fetch (name this +:+ "/") (Some (mergeParams this params)).

Definition retrieve (this : DashResource) (api : DashAPI) (fetch : Fetch)
  (id : Scalar) : Exchange :=
  get api fetch (name this +:+ "/" +:+ String_scalar id +:+ "/")
    (res_params this).

Definition create (this : DashResource) (api : DashAPI) (fetch : Fetch)
  (object : Json) : Exchange :=
  post api fetch (name this +:+ "/") object None.

Definition update (this : DashResource) (api : DashAPI) (fetch : Fetch)
  (id : Scalar) (object : Json) : Exchange :=
  put api fetch (name this +:+ "/" +:+ String_scalar id +:+ "/") object None.

Definition getAction (this : DashResource) (api : DashAPI) (fetch : Fetch)
  (action : string) (params : option HttpParams) : Exchange :=
  get api fetch (name this +:+ "/" +:+ action +:+ "/") params.

(** ** Middlewares *)

(** [middlewares.ts] *)
Definition CorsMiddleware : Middleware := fun requestData =>
  {| RequestData.path := RequestData.path requestData;
     RequestData.params := RequestData.params requestData;
     RequestData.options :=
       <["credentials" := OStr "include"]>
         (<["mode" := OStr "cors"]> (RequestData.options requestData)) |}.

(** [data.options.headers], spread into an object literal *)
Definition headers_of (options : RequestInit) : gmap string string :=
  match options !! "headers" with
  | Some (OHeaders h) => h
  | _ => ∅
  end.

(** The middlewares of the test-suite:
    [(data) => ({...data, options: {...data.options,
                 headers: {...data.options.headers, ...extra}}})] *)
Definition headers_middleware (extra : gmap string string) : Middleware :=
  fun data =>
  {| RequestData.path := RequestData.path data;
     RequestData.params := RequestData.params data;
     RequestData.options :=
       <["headers" :=
           OHeaders (extra ∪ headers_of (RequestData.options data))]>
         (RequestData.options data) |}.

End Client.

Arguments Resolved {_ A} a.
Arguments Rejected {_ A} reason.
Arguments Pending {_ A}.

(** ** Vocabulary of the specification *)

(** [path.startsWith("/")] *)
Definition startsWith_slash (s : string) : bool :=
  match s with
  | "" => false
  | String c _ => Ascii.eqb c "/"
  end.

(** In [base/path], a single separator stands between [base] and [path]:
    [base] does not end with one and [path] does not begin with one. *)
Definition single_separator (base path : string) : bool :=
  negb (endsWith_slash base) && negb (startsWith_slash path).

(** The part of a multipart payload a form field becomes: a
    [{file, filename}] pair is a file part under that filename, any other
    value a text part holding its string form. *)
Definition form_entry (field : string * ApiRequestFormBodyValue) : FormEntry :=
  match snd field with
  | FormFile file filename => FileEntry (fst field) file filename
  | FormStr s => TextEntry (fst field) s
  | FormNum n => TextEntry (fst field) (String_number n)
  end.

(** ** Values of the test-suite *)

(** A transport that answers every call with one response. *)
Definition fetch_answering `{Runtime} (status : Z) (body : string) : Fetch :=
  fun _ _ => Resolved {| status := status; body_text := body |}.

(** [errorHandler: (res) => Promise.reject(res.status === 400 ?
    'Invalid data' : 'Unknown error')] *)
Definition rejecting_handler `{Runtime} : ErrorHandler :=
  fun res =>
    Rejected
      (OfString (if status res =? 400 then "Invalid data" else "Unknown error")).

(** A handler that breaks its contract: [(res) => Promise.resolve()] *)
Definition resolving_handler `{Runtime} : ErrorHandler :=
  fun _ => Resolved Undefined.

(** A handler whose promise never settles:
    [(res) => new Promise(() => {})] *)
Definition silent_handler `{Runtime} : ErrorHandler :=
  fun _ => Pending.

Definition api_with_handler `{Runtime} (handler : ErrorHandler) : DashAPI :=
  DashAPI_new (Some "https://server")
    (Some {| errorHandler := Some handler; cfg_options := None |}).

(** [new DashAPI('https://server')] *)
Definition test_api `{Runtime} : DashAPI :=
  DashAPI_new (Some "https://server") None.


Definition json_config `{Runtime} (body : Json) : ApiRequestConfig :=
  {| cfg_params := None; cfg_body := Some body;
     cfg_formBody := None; cfg_form := None |}.

(** The form body of the test-suite. *)
Definition test_formBody : ApiRequestFormBody :=
  [ ("name", FormStr "nameValue");
    ("file", FormFile {| blob_bytes := "test"; blob_type := "text/plain" |}
                      "filenameValue") ].

(** The header middlewares of the test-suite. *)
Definition test_headers1 : gmap string string :=
  {[ "X-Test" := "a"; "X-CSRFToken" := "abcdefg" ]}.

Definition test_headers2 : gmap string string := {[ "X-Test" := "b" ]}.

(** A JSON body in [text_runtime]. *)
Definition test_body : @Json text_runtime := "{}".

(** A resource with a default parameter, and parameters of a caller. *)
Definition book_resource : DashResource :=
  createResource "book"
    (Some [("page", PScalar (Num 1)); ("lang", PScalar (Str "en"))]).

Definition caller_params : HttpParams :=
  [("params", PScalar (Str "params")); ("page", PScalar (Num 2))].

Definition form_config `{Runtime} (formBody : ApiRequestFormBody)
  (form : option bool) : ApiRequestConfig :=
  {| cfg_params := None; cfg_body := None;
     cfg_formBody := Some formBody; cfg_form := form |}.

(** ** [class DashResource]: the other methods *)

Definition DashResource_patch `{Runtime} (this : DashResource) (api : DashAPI)
  (fetch : Fetch) (id : Scalar) (object : Json) : Exchange :=
  patch api fetch (name this +:+ "/" +:+ String_scalar id +:+ "/") object None.

Definition DashResource_delete `{Runtime} (this : DashResource) (api : DashAPI)
  (fetch : Fetch) (id : Scalar) : Exchange :=
  delete api fetch (name this +:+ "/" +:+ String_scalar id +:+ "/") None.

Definition postAction `{Runtime} (this : DashResource) (api : DashAPI)
  (fetch : Fetch) (action : string) (body : Json)
  (params : option HttpParams) : Exchange :=
  post api fetch (name this +:+ "/" +:+ action +:+ "/") body params.

Definition getDetailAction `{Runtime} (this : DashResource) (api : DashAPI)
  (fetch : Fetch) (action : string) (id : Scalar)
  (params : option HttpParams) : Exchange :=
  get api fetch
    (name this +:+ "/" +:+ String_scalar id +:+ "/" +:+ action +:+ "/") params.

Definition postDetailAction `{Runtime} (this : DashResource) (api : DashAPI)
  (fetch : Fetch) (action : string) (id : Scalar) (body : Json)
  (params : option HttpParams) : Exchange :=
  post api fetch
    (name this +:+ "/" +:+ String_scalar id +:+ "/" +:+ action +:+ "/")
    body params.

Definition DashResource_postForm `{Runtime} (this : DashResource)
  (api : DashAPI) (fetch : Fetch) (action : string)
  (formBody : ApiRequestFormBody) (params : option HttpParams) : Exchange :=
  postForm api fetch (name this +:+ "/" +:+ action +:+ "/") formBody params.

(** [createCustomResource(cls)]: [new cls(this)] *)
Definition createCustomResource `{Runtime} {T : Type} (cls : DashAPI -> T)
  (this : DashAPI) : T :=
  cls this.

(** ** The client of the first release ([src/lib/DashApi.ts])

    It has neither configuration nor middlewares; [mode] and
    [credentials] are fixed in [request]. *)

Record LegacyAPI := { legacy_baseUrl : string }.

Definition LegacyAPI_new (baseUrl : option string) : LegacyAPI :=
  let baseUrl := match baseUrl with Some b => b | None => "/api" end in
  {| (* trim trailing slash *)
     legacy_baseUrl :=
       if endsWith_slash baseUrl then slice_0_m1 baseUrl else baseUrl |}.

Definition legacy_getUrl (this : LegacyAPI) (path : string)
  (params : option HttpParams) : string :=
  let qs := match params with
            | Some params => Some (urlParams params)
            | None => None
            end in
  (legacy_baseUrl this +:+ "/" +:+ path)
  +:+ match qs with
      | Some qs => if String.eqb qs "" then "" else "?" +:+ qs
      | None => ""
      end.

Definition legacy_request_options `{Runtime} (method : string)
  (config : option ApiRequestConfig) : RequestInit :=
  let headers : gmap string string := ∅ in
  let options : RequestInit :=
    <["credentials" := OStr "include"]>
      (<["mode" := OStr "cors"]> (<["method" := OStr method]> ∅)) in
  let '(headers, options) :=
    match config_body config with
    | Some body =>
        (<["Content-Type" := "application/json"]> headers,
         <["body" := OStr (JSON_stringify body)]> options)
    | None =>
        match config_formBody config with
        | Some formBody =>
            let formData :=
              fold_left (append_field formBody) (Obj.keys formBody) [] in
            (headers, <["body" := OForm formData]> options)
        | None => (headers, options)
        end
    end in
  <["headers" := OHeaders headers]> options.

Definition legacy_request `{Runtime} (this : LegacyAPI) (fetch : Fetch)
  (path method : string) (config : option ApiRequestConfig) : Exchange :=
  let call := {| call_url := legacy_getUrl this path (config_params config);
                 call_options := legacy_request_options method config |} in
  {| sent := call;
     outcome :=
       match fetch (call_url call) (call_options call) with
       | Resolved response =>
           if status response =? 204 then Resolved Undefined
           else if (200 <=? status response) && (status response <=? 299)
           then Response_json response
           else Rejected (OfResponse response)
       | Rejected reason => Rejected reason
       | Pending => Pending
       end |}.

(** ** More vocabulary *)

(** Two query strings put together: [&] between them when both have
    pairs. *)
Definition join_query (a b : string) : string :=
  if String.eqb a "" then b
  else if String.eqb b "" then a
  else a +:+ "&" +:+ b.

(** Every character of [s] satisfies [P]. *)
Fixpoint string_forall (P : ascii -> bool) (s : string) : bool :=
  match s with
  | "" => true
  | String c s' => P c && string_forall P s'
  end.

(** The characters a query string is made of: the unreserved ones, the
    [%] and digits of an escape, and the separators [=] and [&]. *)
Definition query_char (c : ascii) : bool :=
  is_unreserved c || existsb (Ascii.eqb c) ["%"; "="; "&"]%char.

(** A middleware that leaves path and params alone. *)
Definition keeps_target (m : Middleware) : Prop :=
  forall rd, RequestData.path (m rd) = RequestData.path rd
             /\ RequestData.params (m rd) = RequestData.params rd.

(** [k] is made of decimal digits only. The array indices, which
    JavaScript lists before the other keys of an object, are among these
    keys. *)
Definition digits_only (k : string) : bool :=
  negb (String.eqb k "")
  && string_forall
       (fun c => (48 <=? N_of_ascii c)%N && (N_of_ascii c <=? 57)%N) k.

(** [k] is not a key of [o]. *)
Definition new_key {V} (o : Obj.t V) (k : string) : bool :=
  negb (existsb (String.eqb k) (Obj.keys o)).

(** * Properties *)

(** ** Objects *)

Section ObjFacts.
Context {V : Type}.
Implicit Types (o : Obj.t V) (k : string) (v : V).

Lemma get_None_notin k o : Obj.get k o = None <-> ~ In k (Obj.keys o).
Proof.
  induction o as [|[k' v] o IH]; simpl; [tauto|].
  destruct (String.eqb_spec k' k) as [->|Hne]; [split; [discriminate|tauto]|].
  rewrite IH. tauto.
Qed.

Lemma set_fresh k v o : ~ In k (Obj.keys o) -> Obj.set k v o = o ++ [(k, v)].
Proof.
  induction o as [|[k' v'] o IH]; simpl; intros Hk; [reflexivity|].
  destruct (String.eqb_spec k' k) as [->|Hne]; [tauto|].
  rewrite IH; tauto.
Qed.

Lemma get_set_eq k v o : Obj.get k (Obj.set k v o) = Some v.
Proof.
  induction o as [|[k' v'] o IH]; simpl.
  - now rewrite String.eqb_refl.
  - destruct (String.eqb_spec k' k) as [->|Hne]; simpl.
    + now rewrite String.eqb_refl.
    + destruct (String.eqb_spec k' k); [contradiction|exact IH].
Qed.

Lemma get_set_ne k k' v o : k <> k' -> Obj.get k' (Obj.set k v o) = Obj.get k' o.
Proof.
  intros Hne. induction o as [|[k0 v0] o IH]; simpl.
  - destruct (String.eqb_spec k k'); [contradiction|reflexivity].
  - destruct (String.eqb_spec k0 k) as [->|Hne0]; simpl.
    + destruct (String.eqb_spec k k'); [contradiction|reflexivity].
    + now rewrite IH.
Qed.

Lemma keys_set k v o :
  Obj.keys (Obj.set k v o) =
  match Obj.get k o with Some _ => Obj.keys o | None => Obj.keys o ++ [k] end.
Proof.
  induction o as [|[k0 v0] o IH]; simpl; [reflexivity|].
  destruct (String.eqb_spec k0 k) as [->|Hne]; simpl; [reflexivity|].
  rewrite IH. now destruct (Obj.get k o).
Qed.

Lemma wf_set k v o : Obj.wf o -> Obj.wf (Obj.set k v o).
Proof.
  unfold Obj.wf. intros Hwf. rewrite keys_set.
  destruct (Obj.get k o) eqn:Hg; [exact Hwf|].
  apply get_None_notin in Hg.
  apply NoDup_app. repeat split; [exact Hwf| |apply NoDup_singleton].
  intros x Hx Hx'. apply list_elem_of_In in Hx.
  apply list_elem_of_singleton in Hx'. now subst.
Qed.

Lemma get_spread k (target src : Obj.t V) :
  Obj.get k (Obj.spread target src) =
  match Obj.get k (rev src) with Some v => Some v | None => Obj.get k target end.
Proof.
  unfold Obj.spread. revert target.
  induction src as [|[k0 v0] src IH]; intros target; simpl; [reflexivity|].
  rewrite IH. clear IH.
  assert (Hrev : forall l : Obj.t V, Obj.get k (l ++ [(k0, v0)]) =
            match Obj.get k l with Some v => Some v
            | None => if String.eqb k0 k then Some v0 else None end).
  { induction l as [|[k1 v1] l IHl]; simpl; [reflexivity|].
    now destruct (String.eqb k1 k). }
  rewrite Hrev. destruct (Obj.get k (rev src)); [reflexivity|].
  destruct (String.eqb_spec k0 k) as [->|Hne].
  - apply get_set_eq.
  - now apply get_set_ne.
Qed.

(** Copying an object after properties it does not share appends it. *)
Lemma spread_app (pre : Obj.t V) o : Obj.wf (pre ++ o) -> Obj.spread pre o = pre ++ o.
Proof.
  unfold Obj.spread, Obj.wf, Obj.keys. revert pre.
  induction o as [|[k v] o IH]; intros pre Hwf; simpl.
  - now rewrite app_nil_r.
  - assert (Hk : ~ In k (Obj.keys pre)).
    { rewrite map_app in Hwf. simpl in Hwf.
      apply NoDup_app in Hwf as (_ & Hdisj & _).
      intros Hin. apply (Hdisj k); [now apply list_elem_of_In|].
      apply list_elem_of_here. }
    rewrite set_fresh by exact Hk.
    rewrite IH; rewrite <- app_assoc; [reflexivity|exact Hwf].
Qed.

Lemma spread_nil o : Obj.wf o -> Obj.spread [] o = o.
Proof. intros Hwf. now apply (spread_app []). Qed.

(** Reading every key of a well-formed object visits its properties. *)
Lemma keys_get_entries {B} (f : string -> option V -> B) o :
  Obj.wf o -> map (fun k => f k (Obj.get k o)) (Obj.keys o)
          = map (fun kv => f (fst kv) (Some (snd kv))) o.
Proof.
  unfold Obj.wf, Obj.keys. induction o as [|[k v] o IH]; intros Hwf; simpl;
    [reflexivity|].
  rewrite String.eqb_refl. f_equal.
  apply NoDup_cons in Hwf as [Hk Hwf].
  rewrite <- IH by exact Hwf. rewrite !map_map.
  apply map_ext_in. intros [k' v'] Hin. simpl.
  destruct (String.eqb_spec k k') as [->|Hne]; [|reflexivity].
  exfalso. apply Hk. apply list_elem_of_In. apply in_map_iff.
  now exists (k', v').
Qed.
End ObjFacts.

Lemma get_In {V} (o : Obj.t V) k v :
  Obj.wf o -> In (k, v) o -> Obj.get k o = Some v.
Proof.
  unfold Obj.wf, Obj.keys.
  induction o as [|[k0 v0] o IH]; simpl; intros Hwf Hin; [contradiction|].
  apply NoDup_cons in Hwf as [Hk Hwf].
  destruct Hin as [Heq|Hin].
  - injection Heq as -> ->. now rewrite String.eqb_refl.
  - destruct (String.eqb_spec k0 k) as [->|Hne]; [|now apply IH].
    exfalso. apply Hk, list_elem_of_In, in_map_iff. now exists (k, v).
Qed.

Lemma fold_left_ext_in {A B} (f g : A -> B -> A) (l : list B) :
  (forall a x, In x l -> f a x = g a x) ->
  forall a, fold_left f l a = fold_left g l a.
Proof.
  induction l as [|x l IH]; intros Hfg a; simpl; [reflexivity|].
  rewrite Hfg by now left. apply IH. intros a' y Hy. apply Hfg. now right.
Qed.

(** ** The query encoder *)

Lemma joined_value_empty v : joined_value v = None <-> is_empty_param v = true.
Proof.
  destruct v as [| |[n|[|c s]]|xs]; simpl; split; congruence.
Qed.

Lemma filtered_joined_cons k v (params : HttpParams) :
  filtered_joined ((k, v) :: params) =
  match joined_value v with
  | Some x => (k, x) :: filtered_joined params
  | None => filtered_joined params
  end.
Proof. unfold filtered_joined. simpl. now destruct (joined_value v). Qed.

Lemma filtered_joined_keys k (params : HttpParams) :
  In k (Obj.keys (filtered_joined params)) -> In k (Obj.keys params).
Proof.
  induction params as [|[k0 v0] params IH]; [easy|].
  rewrite filtered_joined_cons. simpl.
  destruct (joined_value v0); simpl; tauto.
Qed.

Lemma filtered_joined_wf (params : HttpParams) :
  Obj.wf params -> Obj.wf (filtered_joined params).
Proof.
  unfold Obj.wf. induction params as [|[k v] params IH]; intros Hwf.
  - constructor.
  - rewrite filtered_joined_cons. simpl in Hwf.
    apply NoDup_cons in Hwf as [Hk Hwf].
    destruct (joined_value v); [|now apply IH].
    simpl. apply NoDup_cons. split; [|now apply IH].
    intros Hin. apply Hk. apply list_elem_of_In.
    apply list_elem_of_In in Hin. now apply filtered_joined_keys.
Qed.

(** One round of the reducer on a key not met before. *)
Lemma concat_step_fresh (params : HttpParams) acc k v :
  Obj.get k params = Some v -> Obj.wf acc -> ~ In k (Obj.keys acc) ->
  concat_step params acc k =
  match joined_value v with
  | Some x => acc ++ [(k, x)]
  | None => acc
  end.
Proof.
  intros Hget Hacc Hk. unfold concat_step, param_read. rewrite Hget.
  destruct (is_empty_param v) eqn:He.
  - apply joined_value_empty in He. now rewrite He.
  - rewrite spread_nil by exact Hacc. rewrite set_fresh by exact Hk.
    destruct v as [| |[n|[|c s]]|xs]; simpl in *; try discriminate;
      reflexivity.
Qed.

Lemma concat_fold (params rest : HttpParams) :
  (forall k v, In (k, v) rest -> Obj.get k params = Some v) ->
  forall acc, NoDup (Obj.keys acc ++ Obj.keys rest) ->
  fold_left (concat_step params) (Obj.keys rest) acc
  = acc ++ filtered_joined rest.
Proof.
  induction rest as [|[k v] rest IH]; intros Hget acc Hnd.
  - simpl. now rewrite app_nil_r.
  - rewrite filtered_joined_cons. simpl. simpl in Hnd.
    pose proof Hnd as Hnd'.
    apply NoDup_app in Hnd' as (Hacc & Hdisj & _).
    assert (Hk : ~ In k (Obj.keys acc)).
    { intros Hin. apply (Hdisj k); [now apply list_elem_of_In|].
      apply list_elem_of_here. }
    rewrite (concat_step_fresh params acc k v); auto using in_eq.
    assert (Hget' : forall k' v', In (k', v') rest ->
                                  Obj.get k' params = Some v').
    { intros k' v' Hin. apply Hget. now right. }
    destruct (joined_value v) as [x|].
    + rewrite IH; [now rewrite <- app_assoc|exact Hget'|].
      unfold Obj.keys. rewrite map_app, <- app_assoc. exact Hnd.
    + apply IH; [exact Hget'|].
      apply NoDup_app in Hnd as (? & Hd & Hr).
      apply NoDup_cons in Hr as [_ Hr].
      apply NoDup_app. repeat split; [assumption| |assumption].
      intros x Hx Hx'. apply (Hd x Hx). now apply list_elem_of_further.
Qed.

(** The object built by the reducer is the filtered, comma-joined
    representation of the parameters. *)
Lemma concatedParams_filtered_joined (params : HttpParams) :
  Obj.wf params -> concatedParams params = filtered_joined params.
Proof.
  intros Hwf. unfold concatedParams.
  rewrite (concat_fold params params); [reflexivity| |exact Hwf].
  intros k v Hin. now apply get_In.
Qed.

Lemma urlParams_encode_spec (params : HttpParams) :
  Obj.wf params -> urlParams params = encode_spec params.
Proof.
  intros Hwf. unfold urlParams, encode_spec.
  rewrite concatedParams_filtered_joined by exact Hwf.
  f_equal.
  apply (keys_get_entries
           (fun k ov => encode_pair k (match ov with
                                       | Some v => v
                                       | None => "undefined"
                                       end))).
  now apply filtered_joined_wf.
Qed.

Lemma test_params_wf : Obj.wf test_params.
Proof. apply (bool_decide_unpack _). vm_compute. exact I. Qed.

(** C6: for every [HttpParams] object, [urlParams] drops the keys whose
    value is null, undefined or the empty string, joins a sequence value
    with [,] after stringifying its elements and stringifies any other
    value ([filtered_joined]), percent-encodes key and joined value around
    [=] and joins the pairs with [&] in iteration order ([encode_spec]);
    the result is the empty string when no pair survives; and the
    parameters of the test-suite encode to
    [a=1&b=2&c=3%2C4%2C5&d=a%2Cb%2Cc&h%2Bi=h%2Bi]. *)
Theorem urlParams_correct (params : HttpParams) (Hwf : Obj.wf params) :
  urlParams params
  = String.concat "&"
      (map (fun kv => encodeURIComponent (fst kv) +:+ "="
                      +:+ encodeURIComponent (snd kv))
           (filtered_joined params))
  /\ (filtered_joined params = [] -> urlParams params = "")
  /\ urlParams test_params = "a=1&b=2&c=3%2C4%2C5&d=a%2Cb%2Cc&h%2Bi=h%2Bi".
Proof.
  pose proof (urlParams_encode_spec params Hwf) as Hspec.
  split; [exact Hspec|]. split; [|reflexivity].
  intros Hnil. rewrite Hspec. unfold encode_spec. now rewrite Hnil.
Qed.

Lemma urlParams_correct_witness :
  Obj.wf test_params
  /\ urlParams test_params
     = String.concat "&"
         (map (fun kv => encodeURIComponent (fst kv) +:+ "="
                         +:+ encodeURIComponent (snd kv))
              (filtered_joined test_params)).
Proof.
  split; [exact test_params_wf|].
  exact (proj1 (urlParams_correct test_params test_params_wf)).
Defined.

(** ** Percent-encoding *)

Ltac each_byte c :=
  destruct c as [[] [] [] [] [] [] [] []]; vm_compute; try easy; auto.

Lemma contains_app c s1 s2 :
  contains c (s1 +:+ s2) = contains c s1 || contains c s2.
Proof.
  induction s1 as [|a s1 IH]; simpl; [reflexivity|].
  now rewrite IH, orb_assoc.
Qed.

Lemma encode_byte_no_sep c :
  contains "&" (encode_byte c) = false /\ contains "=" (encode_byte c) = false.
Proof. each_byte c. Qed.

Lemma encode_no_sep s :
  contains "&" (encodeURIComponent s) = false
  /\ contains "=" (encodeURIComponent s) = false.
Proof.
  induction s as [|c s [IH1 IH2]]; simpl; [easy|].
  rewrite !contains_app, IH1, IH2.
  now destruct (encode_byte_no_sep c) as [-> ->].
Qed.

Lemma unreserved_not_percent c :
  is_unreserved c = true -> Ascii.eqb c "%" = false.
Proof. each_byte c. Qed.

Lemma hex_digits_value c :
  hex_value (hex_digit (N_of_ascii c / 16)) = Some (N_of_ascii c / 16)%N
  /\ hex_value (hex_digit (N_of_ascii c mod 16)) = Some (N_of_ascii c mod 16)%N.
Proof. each_byte c. Qed.

Lemma byte_of_hex c :
  ascii_of_N (16 * (N_of_ascii c / 16) + N_of_ascii c mod 16) = c.
Proof.
  rewrite <- N.div_mod by discriminate. apply ascii_N_embedding.
Qed.

Lemma decode_plain c s :
  Ascii.eqb c "%" = false ->
  decodeURIComponent (String c s)
  = option_map (String c) (decodeURIComponent s).
Proof. intros Hc. cbn [decodeURIComponent]. now rewrite Hc. Qed.

Lemma decode_escape h l s :
  decodeURIComponent (String "%" (String h (String l s)))
  = match hex_value h, hex_value l, decodeURIComponent s with
    | Some x, Some y, Some r => Some (String (ascii_of_N (16 * x + y)%N) r)
    | _, _, _ => None
    end.
Proof. reflexivity. Qed.

Lemma decode_encode_byte c s r :
  decodeURIComponent s = Some r ->
  decodeURIComponent (encode_byte c +:+ s) = Some (String c r).
Proof.
  intros Hs. unfold encode_byte.
  destruct (is_unreserved c) eqn:Hu.
  - change (String c "" +:+ s) with (String c s).
    rewrite decode_plain by now apply unreserved_not_percent.
    now rewrite Hs.
  - unfold percent_escape.
    change (String "%" (String ?h (String ?l "")) +:+ s)
      with (String "%" (String h (String l s))).
    rewrite decode_escape.
    destruct (hex_digits_value c) as [-> ->].
    now rewrite Hs, byte_of_hex.
Qed.

Lemma decode_encode s :
  decodeURIComponent (encodeURIComponent s) = Some s.
Proof.
  induction s as [|c s IH]; [reflexivity|].
  simpl encodeURIComponent. now apply decode_encode_byte.
Qed.

(** ** Splitting what was joined *)

Lemma split_no_sep c s : contains c s = false -> split c s = [s].
Proof.
  induction s as [|a s IH]; simpl; [reflexivity|].
  destruct (Ascii.eqb a c); simpl; [discriminate|].
  intros Hs. now rewrite IH.
Qed.

Lemma split_app_sep c s1 s2 :
  contains c s1 = false ->
  split c (s1 +:+ String c s2) = s1 :: split c s2.
Proof.
  induction s1 as [|a s1 IH]; simpl.
  - now rewrite Ascii.eqb_refl.
  - destruct (Ascii.eqb a c); simpl; [discriminate|].
    intros Hs. now rewrite IH.
Qed.

Lemma split_concat c (ps : list string) :
  ps <> [] -> Forall (fun p => contains c p = false) ps ->
  split c (String.concat (String c "") ps) = ps.
Proof.
  induction ps as [|p ps IH]; [congruence|].
  intros _ Hall. apply Forall_cons in Hall as [Hp Hall].
  destruct ps as [|q ps].
  - simpl. now apply split_no_sep.
  - change (String.concat (String c "") (p :: q :: ps))
      with (p +:+ String c (String.concat (String c "") (q :: ps))).
    rewrite split_app_sep by exact Hp.
    now rewrite IH.
Qed.

Lemma concat_nonempty sep p (ps : list string) :
  p <> "" -> String.concat sep (p :: ps) <> "".
Proof.
  destruct p as [|a p]; [congruence|]. intros _.
  destruct ps; simpl; discriminate.
Qed.

Lemma encode_pair_nonempty k v : encode_pair k v <> "".
Proof.
  unfold encode_pair. destruct (encodeURIComponent k); simpl; discriminate.
Qed.

Lemma encode_pair_no_amp k v : contains "&" (encode_pair k v) = false.
Proof.
  unfold encode_pair. rewrite !contains_app.
  destruct (encode_no_sep k) as [-> _].
  now destruct (encode_no_sep v) as [-> _].
Qed.

Lemma parse_encode_pair k v : parse_pair (encode_pair k v) = Some (k, v).
Proof.
  unfold parse_pair, encode_pair.
  change ("=" +:+ encodeURIComponent v)
    with (String "=" (encodeURIComponent v)).
  rewrite split_app_sep by apply encode_no_sep.
  rewrite split_no_sep by apply encode_no_sep.
  now rewrite !decode_encode.
Qed.

Lemma parse_encode_pairs (kvs : list (string * string)) :
  parse_pairs (map (fun kv => encode_pair (fst kv) (snd kv)) kvs) = Some kvs.
Proof.
  induction kvs as [|[k v] kvs IH]; [reflexivity|].
  simpl. now rewrite parse_encode_pair, IH.
Qed.

Lemma parse_encode_spec (params : HttpParams) :
  parse_query (encode_spec params) = Some (filtered_joined params).
Proof.
  unfold parse_query, encode_spec.
  destruct (filtered_joined params) as [|[k v] kvs] eqn:Hfj; [reflexivity|].
  set (ps := map _ _).
  destruct (String.eqb_spec (String.concat "&" ps) "") as [He|_].
  - exfalso. revert He. apply concat_nonempty, encode_pair_nonempty.
  - rewrite split_concat.
    + apply (parse_encode_pairs ((k, v) :: kvs)).
    + discriminate.
    + apply Forall_map, Forall_forall. intros kv _. apply encode_pair_no_amp.
Qed.

(** C7: re-parsing what [urlParams] produced (split on [&], each pair on
    [=], percent-decode key and value) gives back the filtered,
    comma-joined representation of the parameters, which is the object
    [concatedParams] the encoder builds; the encoding is a function of
    that representation, and two parameter objects with distinct
    representations never encode to the same string. *)
Theorem urlParams_roundtrip (params : HttpParams) (Hwf : Obj.wf params) :
  parse_query (urlParams params) = Some (filtered_joined params)
  /\ concatedParams params = filtered_joined params
  /\ (forall params' : HttpParams, Obj.wf params' ->
        filtered_joined params' = filtered_joined params ->
        urlParams params' = urlParams params)
  /\ (forall params' : HttpParams, Obj.wf params' ->
        filtered_joined params' <> filtered_joined params ->
        urlParams params' <> urlParams params).
Proof.
  split; [|split; [|split]].
  - rewrite urlParams_encode_spec by exact Hwf. apply parse_encode_spec.
  - now apply concatedParams_filtered_joined.
  - intros params' Hwf' Heq.
    rewrite !urlParams_encode_spec by assumption.
    unfold encode_spec. now rewrite Heq.
  - intros params' Hwf' Hne Heq. apply Hne.
    assert (Hp : parse_query (urlParams params')
                 = parse_query (urlParams params)) by now rewrite Heq.
    rewrite !urlParams_encode_spec, !parse_encode_spec in Hp by assumption.
    congruence.
Qed.

Lemma urlParams_roundtrip_witness :
  Obj.wf test_params
  /\ parse_query (urlParams test_params) = Some (filtered_joined test_params).
Proof.
  split; [exact test_params_wf|].
  exact (proj1 (urlParams_roundtrip test_params test_params_wf)).
Defined.

(** ** The client *)

Lemma append_cons c s t : String c s +:+ t = String c (s +:+ t).
Proof. reflexivity. Qed.

Lemma append_empty_r s : s +:+ "" = s.
Proof.
  induction s as [|c s IH]; [reflexivity|]. now rewrite append_cons, IH.
Qed.

Lemma append_assoc s1 s2 s3 : (s1 +:+ s2) +:+ s3 = s1 +:+ s2 +:+ s3.
Proof.
  induction s1 as [|c s1 IH]; [reflexivity|]. now rewrite !append_cons, IH.
Qed.

Lemma endsWith_slash_snoc s c :
  endsWith_slash (s +:+ String c "") = Ascii.eqb c "/".
Proof.
  induction s as [|a s IH]; [reflexivity|].
  rewrite append_cons. destruct s as [|b s]; [reflexivity|].
  rewrite append_cons in *. exact IH.
Qed.

Lemma slice_0_m1_snoc s c : slice_0_m1 (s +:+ String c "") = s.
Proof.
  induction s as [|a s IH]; [reflexivity|].
  rewrite append_cons. destruct s as [|b s]; [reflexivity|].
  rewrite append_cons in *. cbn [slice_0_m1] in *. now rewrite IH.
Qed.

Section ClientFacts.
Context `{Runtime}.
Implicit Types (this : DashAPI) (fetch : Fetch) (path method : string).
Implicit Types (conf : option ApiRequestConfig) (response : Response).

Lemma baseUrl_new base (cfg : option ApiConfig) :
  baseUrl (DashAPI_new (Some base) cfg)
  = if endsWith_slash base then slice_0_m1 base else base.
Proof. reflexivity. Qed.

(** C8, as the code has it: a base URL ending with [/] is stored without
    that one character, any other base URL as it is; [getUrl] returns
    the stored base URL, one [/] and the path, followed by [?] and the
    query string exactly when parameters are given and encode to a
    non-empty string; a single separator stands between base and path
    when the base URL given does not end with two separators and the path
    does not begin with one; and [getUrl('')] on base [https://server/]
    is [https://server/]. *)
Theorem getUrl_base_path (base : string) (cfg : option ApiConfig) path :
  (forall s, base = s +:+ "/" -> baseUrl (DashAPI_new (Some base) cfg) = s)
  /\ (endsWith_slash base = false ->
      baseUrl (DashAPI_new (Some base) cfg) = base)
  /\ getUrl (DashAPI_new (Some base) cfg) path None
     = baseUrl (DashAPI_new (Some base) cfg) +:+ "/" +:+ path
  /\ (forall p : HttpParams,
        getUrl (DashAPI_new (Some base) cfg) path (Some p)
        = if String.eqb (urlParams p) ""
          then baseUrl (DashAPI_new (Some base) cfg) +:+ "/" +:+ path
          else baseUrl (DashAPI_new (Some base) cfg) +:+ "/" +:+ path
               +:+ "?" +:+ urlParams p)
  /\ (endsWith_slash base && endsWith_slash (slice_0_m1 base) = false ->
      startsWith_slash path = false ->
      single_separator (baseUrl (DashAPI_new (Some base) cfg)) path = true)
  /\ getUrl (DashAPI_new (Some "https://server/") None) "" None
     = "https://server/".
Proof.
  rewrite baseUrl_new. repeat split.
  - intros s ->. now rewrite endsWith_slash_snoc, slice_0_m1_snoc.
  - now intros ->.
  - unfold getUrl. rewrite baseUrl_new. apply append_empty_r.
  - intros p. unfold getUrl. rewrite baseUrl_new.
    destruct (String.eqb (urlParams p) "").
    + apply append_empty_r.
    + now rewrite !append_assoc.
  - intros Hbase Hpath. unfold single_separator. rewrite Hpath.
    destruct (endsWith_slash base) eqn:Hb; simpl in Hbase |- *.
    + now rewrite Hbase.
    + now rewrite Hb.
Qed.

(** *** Status dispatch *)

Lemma request_outcome this fetch path method conf :
  outcome (request this fetch path method conf)
  = match fetch (call_url (sent (request this fetch path method conf)))
                (call_options (sent (request this fetch path method conf)))
    with
    | Resolved response => dispatch this response
    | Rejected reason => Rejected reason
    | Pending => Pending
    end.
Proof. reflexivity. Qed.

Lemma dispatch_204 this response :
  status response = 204 -> dispatch this response = Resolved Undefined.
Proof. intros Hs. unfold dispatch. now rewrite Hs. Qed.

Lemma dispatch_2xx this response :
  200 <= status response <= 299 -> status response <> 204 ->
  dispatch this response = Response_json response.
Proof.
  intros Hr Hne. unfold dispatch.
  destruct (Z.eqb_spec (status response) 204); [contradiction|].
  destruct (Z.leb_spec 200 (status response)); [|lia].
  destruct (Z.leb_spec (status response) 299); [reflexivity|lia].
Qed.

Lemma dispatch_other this response :
  ~ 200 <= status response <= 299 ->
  dispatch this response
  = match config_errorHandler this with
    | Some handler => handler response
    | None => Rejected (OfResponse response)
    end.
Proof.
  intros Hr. unfold dispatch.
  destruct (Z.eqb_spec (status response) 204); [lia|].
  destruct (Z.leb_spec 200 (status response));
    destruct (Z.leb_spec (status response) 299); simpl; try reflexivity; lia.
Qed.

(** C1: when the transport answers a [request] with a response, status
    204 resolves the call with [undefined] whatever the body; any other
    status from 200 to 299 makes the call the promise of [response.json()],
    which resolves with the decoded body; for any other status the call is
    what the configured [errorHandler] returns on the raw response, and
    without a handler it rejects with the raw response. *)
Theorem request_status_dispatch this fetch path method conf response
  (Hfetch : fetch (call_url (sent (request this fetch path method conf)))
              (call_options (sent (request this fetch path method conf)))
            = Resolved response) :
  (status response = 204 ->
   outcome (request this fetch path method conf) = Resolved Undefined)
  /\ (200 <= status response <= 299 -> status response <> 204 ->
      outcome (request this fetch path method conf) = Response_json response
      /\ forall j, JSON_parse (body_text response) = Some j ->
           outcome (request this fetch path method conf)
           = Resolved (OfJson j))
  /\ (~ 200 <= status response <= 299 ->
      (forall handler, config_errorHandler this = Some handler ->
         outcome (request this fetch path method conf) = handler response)
      /\ (config_errorHandler this = None ->
          outcome (request this fetch path method conf)
          = Rejected (OfResponse response))).
Proof.
  rewrite request_outcome, Hfetch. repeat split.
  - apply dispatch_204.
  - now apply dispatch_2xx.
  - intros j Hj. rewrite dispatch_2xx by assumption.
    unfold Response_json. now rewrite Hj.
  - intros handler Hh. rewrite dispatch_other by assumption. now rewrite Hh.
  - intros Hh. rewrite dispatch_other by assumption. now rewrite Hh.
Qed.

(** C5, as the code has it: when the response status is neither 204 nor
    within 200..299, a call without [errorHandler] rejects with the raw
    response, and a call with one ends exactly as the promise the handler
    returns, whatever that promise is; so the call is rejected whenever
    the handler keeps its documented contract of returning a rejected
    promise. *)
Theorem request_error_rejected this fetch path method conf response
  (Hfetch : fetch (call_url (sent (request this fetch path method conf)))
              (call_options (sent (request this fetch path method conf)))
            = Resolved response)
  (Hstatus : status response <> 204 /\ ~ 200 <= status response <= 299) :
  (config_errorHandler this = None ->
   outcome (request this fetch path method conf)
   = Rejected (OfResponse response))
  /\ (forall handler, config_errorHandler this = Some handler ->
        outcome (request this fetch path method conf) = handler response)
  /\ ((forall handler, config_errorHandler this = Some handler ->
         is_rejected (handler response) = true) ->
      is_rejected (outcome (request this fetch path method conf)) = true).
Proof.
  destruct Hstatus as [_ Hrange].
  rewrite request_outcome, Hfetch, dispatch_other by exact Hrange.
  destruct (config_errorHandler this) as [handler|] eqn:Hh.
  - split; [discriminate|]. split; [congruence|].
    intros Hcontract. now apply Hcontract.
  - split; [reflexivity|]. split; [discriminate|reflexivity].
Qed.

(** *** Body encoding *)

Lemma append_fields (formBody rest : ApiRequestFormBody) :
  (forall k v, In (k, v) rest -> Obj.get k formBody = Some v) ->
  forall acc, fold_left (append_field formBody) (Obj.keys rest) acc
              = acc ++ map form_entry rest.
Proof.
  induction rest as [|[k v] rest IH]; intros Hget acc; simpl.
  - now rewrite app_nil_r.
  - rewrite IH by (intros k' v' Hin; apply Hget; now right).
    unfold append_field at 1. rewrite (Hget k v) by now left.
    unfold form_entry at 2. simpl.
    destruct v; now rewrite <- app_assoc.
Qed.

Lemma formData_entries (formBody : ApiRequestFormBody) :
  Obj.wf formBody ->
  fold_left (append_field formBody) (Obj.keys formBody) []
  = map form_entry formBody.
Proof.
  intros Hwf. rewrite (append_fields formBody formBody); [reflexivity|].
  intros k v Hin. now apply get_In.
Qed.

(** C2: the body encoding of [request] is one of three exclusive
    branches, JSON first: a config with [body], whether or not it also has
    [formBody], gives exactly the header
    [Content-Type: application/json] and the body
    [JSON.stringify(config.body)]; a config without [body] and with
    [formBody] gives a form payload with one part per field in order, a
    file part under its filename for a [{file, filename}] value and a
    text part with the string form for any other value, and empty
    headers; a config with neither, or no config, gives empty headers and
    sets no body. Without middlewares these options are the ones handed
    to the transport. *)
Theorem request_body_encoding this method (c : ApiRequestConfig) :
  (forall body, cfg_body c = Some body ->
     request_options this method (Some c)
     = <["headers" := OHeaders {[ "Content-Type" := "application/json" ]}]>
         (<["body" := OStr (JSON_stringify body)]>
            (<["method" := OStr method]> (base_options this))))
  /\ (forall formBody,
        cfg_body c = None -> cfg_formBody c = Some formBody ->
        Obj.wf formBody ->
        request_options this method (Some c)
        = <["headers" := OHeaders ∅]>
            (<["body" := OForm (map form_entry formBody)]>
               (<["method" := OStr method]> (base_options this))))
  /\ (cfg_body c = None -> cfg_formBody c = None ->
      request_options this method (Some c)
      = <["headers" := OHeaders ∅]>
          (<["method" := OStr method]> (base_options this))
      /\ (base_options this !! "body" = None ->
          request_options this method (Some c) !! "body" = None))
  /\ request_options this method None
     = <["headers" := OHeaders ∅]>
         (<["method" := OStr method]> (base_options this))
  /\ (forall fetch path conf, middlewares this = [] ->
        call_options (sent (request this fetch path method conf))
        = request_options this method conf).
Proof.
  unfold request_options. cbn [config_body config_formBody].
  split; [|split; [|split; [|split]]].
  - intros body ->. now rewrite insert_empty.
  - intros formBody -> -> Hwf. now rewrite formData_entries.
  - intros -> ->. split; [reflexivity|]. intros Hbase.
    rewrite !lookup_insert_ne by discriminate. exact Hbase.
  - reflexivity.
  - intros fetch path conf Hms. unfold request. now rewrite Hms.
Qed.

(** *** Frame of the options *)


(** *** The [form] flag *)

(** C10: the [form] field of the request configuration is never read:
    two configurations that agree on [params], [body] and [formBody]
    give the same [RequestData] and the same exchange with the transport,
    and the options built depend on [body] and [formBody] alone. *)
Theorem form_flag_ignored this fetch path method (c1 c2 : ApiRequestConfig)
  (Hparams : cfg_params c1 = cfg_params c2)
  (Hbody : cfg_body c1 = cfg_body c2)
  (HformBody : cfg_formBody c1 = cfg_formBody c2) :
  initial_requestData this path method (Some c1)
  = initial_requestData this path method (Some c2)
  /\ request this fetch path method (Some c1)
     = request this fetch path method (Some c2)
  /\ (forall params1 params2 form1 form2,
        request_options this method
          (Some {| cfg_params := params1; cfg_body := cfg_body c1;
                   cfg_formBody := cfg_formBody c1; cfg_form := form1 |})
        = request_options this method
            (Some {| cfg_params := params2; cfg_body := cfg_body c1;
                     cfg_formBody := cfg_formBody c1; cfg_form := form2 |}))
  /\ (forall form,
        request this fetch path method
          (Some {| cfg_params := None; cfg_body := None;
                   cfg_formBody := None; cfg_form := form |})
        = request this fetch path method None).
Proof.
  assert (Hrd : initial_requestData this path method (Some c1)
                = initial_requestData this path method (Some c2)).
  { unfold initial_requestData, request_options. simpl.
    now rewrite Hparams, Hbody, HformBody. }
  split; [exact Hrd|]. split; [|split; reflexivity].
  unfold request. now rewrite Hrd.
Qed.

(** *** The middleware chain *)

Lemma apply_middlewares_fold (ms : list Middleware) (rd : RequestData) :
  apply_middlewares ms rd = fold_left (fun rd m => m rd) ms rd.
Proof. revert rd. induction ms as [|m ms IH]; intros rd; simpl; auto. Qed.

Lemma apply_middlewares_snoc (ms : list Middleware) (m : Middleware) rd :
  apply_middlewares (ms ++ [m]) rd = m (apply_middlewares ms rd).
Proof. revert rd. induction ms as [|m' ms IH]; intros rd; simpl; auto. Qed.

Lemma request_sent this fetch path method conf :
  sent (request this fetch path method conf)
  = let rd := apply_middlewares (middlewares this)
                (initial_requestData this path method conf) in
    {| call_url := getUrl this (RequestData.path rd) (RequestData.params rd);
       call_options := RequestData.options rd |}.
Proof. reflexivity. Qed.

Lemma headers_of_middleware (extra : gmap string string) (rd : RequestData) :
  headers_of (RequestData.options (headers_middleware extra rd))
  = extra ∪ headers_of (RequestData.options rd).
Proof.
  unfold headers_middleware, headers_of at 1. simpl.
  now rewrite lookup_insert_eq.
Qed.

(** C3: [request] folds the registered middlewares from left to right
    over the initial [RequestData], a middleware registered last being
    applied to the output of all the earlier ones, and calls the transport
    with the path, params and options of the result. When two middlewares
    set the same header, the transport sees the value of the one
    registered later, and every header only one of them or the earlier
    chain sets is still there. *)
Theorem middlewares_in_registration_order this fetch path method conf
  (extra1 extra2 : gmap string string) (x a b : string)
  (Ha : extra1 !! x = Some a) (Hb : extra2 !! x = Some b) :
  let rd0 := initial_requestData this path method conf in
  let before := apply_middlewares (middlewares this) rd0 in
  let this' := addMiddleware (addMiddleware this (headers_middleware extra1))
                 (headers_middleware extra2) in
  let sent_headers :=
    headers_of (call_options (sent (request this' fetch path method conf))) in
  (forall m, middlewares (addMiddleware this m) = middlewares this ++ [m])
  /\ sent (request this fetch path method conf)
     = (let rd := fold_left (fun rd m => m rd) (middlewares this) rd0 in
        {| call_url := getUrl this (RequestData.path rd)
                         (RequestData.params rd);
           call_options := RequestData.options rd |})
  /\ (forall m : Middleware,
        sent (request (addMiddleware this m) fetch path method conf)
        = {| call_url := getUrl this (RequestData.path (m before))
                           (RequestData.params (m before));
             call_options := RequestData.options (m before) |})
  /\ sent_headers !! x = Some b
  /\ (forall k, extra2 !! k = None ->
        sent_headers !! k
        = match extra1 !! k with
          | Some v => Some v
          | None => headers_of (RequestData.options before) !! k
          end).
Proof.
  intros rd0 before this' sent_headers.
  assert (Hsent : sent_headers
                  = extra2 ∪ (extra1 ∪ headers_of (RequestData.options before))).
  { unfold sent_headers, this'. rewrite request_sent. cbn zeta.
    cbn [middlewares addMiddleware call_options].
    rewrite !apply_middlewares_snoc, !headers_of_middleware. reflexivity. }
  split; [reflexivity|]. split; [|split; [|split]].
  - rewrite request_sent. cbn zeta. now rewrite apply_middlewares_fold.
  - intros m. rewrite request_sent. cbn zeta.
    cbn [middlewares addMiddleware]. now rewrite apply_middlewares_snoc.
  - rewrite Hsent. now apply lookup_union_Some_l.
  - intros k Hk. rewrite Hsent.
    rewrite lookup_union_r by exact Hk.
    destruct (extra1 !! k) as [v|] eqn:H1.
    + now apply lookup_union_Some_l.
    + now apply lookup_union_r.
Qed.

(** *** Resources *)

Lemma get_Some_In {V} (o : Obj.t V) k v : Obj.get k o = Some v -> In (k, v) o.
Proof.
  induction o as [|[k0 v0] o IH]; simpl; [discriminate|].
  destruct (String.eqb_spec k0 k) as [->|Hne].
  - intros [= ->]. now left.
  - intros Hg. right. now apply IH.
Qed.

Lemma get_rev {V} (o : Obj.t V) k :
  Obj.wf o -> Obj.get k (rev o) = Obj.get k o.
Proof.
  intros Hwf.
  assert (Hwf' : Obj.wf (rev o)).
  { unfold Obj.wf, Obj.keys in *. rewrite map_rev.
    apply NoDup_ListNoDup, List.NoDup_rev. now apply NoDup_ListNoDup. }
  destruct (Obj.get k o) as [v|] eqn:Hg.
  - apply get_In; [exact Hwf'|]. apply in_rev. rewrite rev_involutive.
    now apply get_Some_In.
  - apply get_None_notin. apply get_None_notin in Hg.
    unfold Obj.keys in *. rewrite map_rev. now rewrite <- in_rev.
Qed.

Lemma wf_spread {V} (target src : Obj.t V) :
  Obj.wf target -> Obj.wf (Obj.spread target src).
Proof.
  unfold Obj.spread. revert target.
  induction src as [|[k v] src IH]; intros target Hwf; simpl; [exact Hwf|].
  apply IH. now apply wf_set.
Qed.

Lemma mergeParams_get (r : DashResource) (p : option HttpParams) k :
  Obj.wf (or_empty (res_params r)) -> Obj.wf (or_empty p) ->
  Obj.get k (mergeParams r p)
  = match Obj.get k (or_empty p) with
    | Some v => Some v
    | None => Obj.get k (or_empty (res_params r))
    end.
Proof.
  intros Hd Hp. unfold mergeParams.
  rewrite get_spread, get_rev by exact Hp.
  destruct (Obj.get k (or_empty p)); [reflexivity|].
  now rewrite spread_nil.
Qed.

(** C4: [list(p)] is a GET on [name/] whose params are the merge of the
    resource defaults and [p], a key of [p] overriding the same key of the
    defaults; [retrieve(id)] is a GET on [name/id/] with exactly the
    resource defaults as params. *)
Theorem resource_list_retrieve (r : DashResource) this fetch
  (p : option HttpParams) (id : Scalar)
  (Hd : Obj.wf (or_empty (res_params r))) (Hp : Obj.wf (or_empty p)) :
  list_ r this fetch p
  = request this fetch (name r +:+ "/") "GET"
      (Some (params_config (Some (mergeParams r p))))
  /\ (forall k,
        Obj.get k (mergeParams r p)
        = match Obj.get k (or_empty p) with
          | Some v => Some v
          | None => Obj.get k (or_empty (res_params r))
          end)
  /\ Obj.wf (mergeParams r p)
  /\ retrieve r this fetch id
     = request this fetch (name r +:+ "/" +:+ String_scalar id +:+ "/") "GET"
         (Some (params_config (res_params r)))
  /\ (middlewares this = [] ->
      call_url (sent (list_ r this fetch p))
      = getUrl this (name r +:+ "/") (Some (mergeParams r p))
      /\ call_options (sent (list_ r this fetch p)) !! "method"
         = Some (OStr "GET")
      /\ call_url (sent (retrieve r this fetch id))
         = getUrl this (name r +:+ "/" +:+ String_scalar id +:+ "/")
             (res_params r)
      /\ call_options (sent (retrieve r this fetch id)) !! "method"
         = Some (OStr "GET")).
Proof.
  split; [reflexivity|]. split; [|split; [|split; [reflexivity|]]].
  - intros k. now apply mergeParams_get.
  - unfold mergeParams. apply wf_spread, wf_spread. constructor.
  - intros Hms. unfold list_, retrieve, get. rewrite !request_sent, Hms.
    cbn. unfold request_options. cbn.
    now rewrite lookup_insert_ne, lookup_insert_eq by discriminate.
Qed.
End ClientFacts.

(** ** More on the query encoder *)

Lemma keys_app {V} (o1 o2 : Obj.t V) :
  Obj.keys (o1 ++ o2) = Obj.keys o1 ++ Obj.keys o2.
Proof. unfold Obj.keys. apply map_app. Qed.

Lemma wf_app_inv {V} (o1 o2 : Obj.t V) :
  Obj.wf (o1 ++ o2) -> Obj.wf o1 /\ Obj.wf o2.
Proof.
  unfold Obj.wf. rewrite keys_app. intros Hwf.
  apply NoDup_app in Hwf as (H1 & _ & H2). now split.
Qed.

Lemma wf_filter {V} (f : string * V -> bool) (o : Obj.t V) :
  Obj.wf o -> Obj.wf (List.filter f o).
Proof.
  unfold Obj.wf, Obj.keys. induction o as [|kv o IH]; intros Hwf; [exact Hwf|].
  simpl in Hwf. apply NoDup_cons in Hwf as [Hk Hwf]. simpl.
  destruct (f kv); [|now apply IH].
  simpl. apply NoDup_cons. split; [|now apply IH].
  intros Hin. apply Hk. apply list_elem_of_In in Hin.
  apply list_elem_of_In. apply in_map_iff in Hin as (kv' & Heq & Hin).
  apply in_map_iff. exists kv'. split; [exact Heq|].
  now apply List.filter_In in Hin as [Hin _].
Qed.

Lemma filtered_joined_app (p1 p2 : HttpParams) :
  filtered_joined (p1 ++ p2) = filtered_joined p1 ++ filtered_joined p2.
Proof.
  induction p1 as [|[k v] p1 IH]; [reflexivity|].
  rewrite <- app_comm_cons, !filtered_joined_cons, IH.
  now destruct (joined_value v).
Qed.

Lemma filtered_joined_filter (params : HttpParams) :
  filtered_joined
    (List.filter (fun kv => negb (is_empty_param (snd kv))) params)
  = filtered_joined params.
Proof.
  induction params as [|[k v] params IH]; [reflexivity|].
  simpl List.filter. rewrite filtered_joined_cons.
  cbn [snd]. destruct (is_empty_param v) eqn:He; cbn [negb].
  - apply joined_value_empty in He. now rewrite He.
  - now rewrite filtered_joined_cons, IH.
Qed.

Lemma filtered_joined_nil (params : HttpParams) :
  filtered_joined params = []
  <-> Forall (fun kv => is_empty_param (snd kv) = true) params.
Proof.
  induction params as [|[k v] params IH].
  - split; [constructor|reflexivity].
  - rewrite filtered_joined_cons, Forall_cons. simpl.
    rewrite <- IH, <- joined_value_empty.
    destruct (joined_value v); split; try easy; now intros [? ?].
Qed.

Lemma get_filtered_joined (params : HttpParams) k :
  Obj.wf params ->
  Obj.get k (filtered_joined params)
  = match Obj.get k params with
    | Some v => joined_value v
    | None => None
    end.
Proof.
  induction params as [|[k0 v0] params IH]; intros Hwf; [reflexivity|].
  unfold Obj.wf in Hwf. simpl in Hwf. apply NoDup_cons in Hwf as [Hk Hwf].
  rewrite filtered_joined_cons. simpl.
  destruct (String.eqb_spec k0 k) as [->|Hne].
  - destruct (joined_value v0) as [x|]; simpl.
    + now rewrite String.eqb_refl.
    + apply get_None_notin. intros Hin. apply Hk, list_elem_of_In.
      now apply filtered_joined_keys.
  - destruct (joined_value v0) as [x|]; simpl.
    + destruct (String.eqb_spec k0 k); [contradiction|now apply IH].
    + now apply IH.
Qed.

Lemma encode_spec_nonempty (params : HttpParams) :
  filtered_joined params <> [] -> encode_spec params <> "".
Proof.
  unfold encode_spec. destruct (filtered_joined params) as [|[k v] kvs];
    [congruence|].
  intros _. simpl map. apply concat_nonempty, encode_pair_nonempty.
Qed.

Lemma concat_app_nonempty sep (l1 l2 : list string) :
  l1 <> [] -> l2 <> [] ->
  String.concat sep (l1 ++ l2)
  = String.concat sep l1 +:+ sep +:+ String.concat sep l2.
Proof.
  intros H1 H2. induction l1 as [|x l1 IH]; [congruence|].
  destruct l1 as [|y l1].
  - destruct l2; [congruence|reflexivity].
  - change (String.concat sep ((x :: y :: l1) ++ l2))
      with (x +:+ sep +:+ String.concat sep ((y :: l1) ++ l2)).
    rewrite IH by discriminate.
    change (String.concat sep (x :: y :: l1))
      with (x +:+ sep +:+ String.concat sep (y :: l1)).
    now rewrite !append_assoc.
Qed.

Lemma eqb_empty_false s : s <> "" -> String.eqb s "" = false.
Proof. intros Hs. now destruct (String.eqb_spec s ""). Qed.

(** X1: in the object the reducer of [urlParams] builds, a key maps to
    the comma-joined string form of its value, and is missing exactly
    when the key is missing from the parameters or its value is null,
    undefined or the empty string; an array is never dropped, not even
    the empty one. *)
Theorem concatedParams_lookup (params : HttpParams) (k : string)
  (Hwf : Obj.wf params) :
  Obj.get k (concatedParams params)
  = match Obj.get k params with
    | Some v => if is_empty_param v then None else Some (String_value v)
    | None => None
    end
  /\ (forall xs, Obj.get k params = Some (PArray xs) ->
        Obj.get k (concatedParams params)
        = Some (String.concat "," (map String_scalar xs))).
Proof.
  rewrite concatedParams_filtered_joined, get_filtered_joined by exact Hwf.
  split.
  - destruct (Obj.get k params) as [[| |[n|[|c s]]|xs]|]; reflexivity.
  - now intros xs ->.
Qed.

(** X2: parameters whose value is null, undefined or the empty string
    count as absent: the query string is that of the other parameters. *)
Theorem urlParams_drops_empty (params : HttpParams) (Hwf : Obj.wf params) :
  urlParams params
  = urlParams (List.filter (fun kv => negb (is_empty_param (snd kv))) params).
Proof.
  rewrite !urlParams_encode_spec by (try apply wf_filter; exact Hwf).
  unfold encode_spec. now rewrite filtered_joined_filter.
Qed.

(** X3: the query string of parameters listed one after the other is the
    query strings of the two parts with [&] between them, or the other
    part alone when one of them is empty. *)
Theorem urlParams_app (p1 p2 : HttpParams) (Hwf : Obj.wf (p1 ++ p2)) :
  urlParams (p1 ++ p2) = join_query (urlParams p1) (urlParams p2).
Proof.
  destruct (wf_app_inv p1 p2 Hwf) as [Hwf1 Hwf2].
  rewrite !urlParams_encode_spec by assumption.
  unfold join_query.
  destruct (filtered_joined p1) as [|kv1 l1] eqn:H1.
  - unfold encode_spec at 2. rewrite H1. simpl String.eqb.
    unfold encode_spec. now rewrite filtered_joined_app, H1.
  - rewrite (eqb_empty_false (encode_spec p1))
      by (apply encode_spec_nonempty; congruence).
    destruct (filtered_joined p2) as [|kv2 l2] eqn:H2.
    + unfold encode_spec at 2. rewrite H2. simpl String.eqb.
      unfold encode_spec. now rewrite filtered_joined_app, H1, H2, app_nil_r.
    + rewrite (eqb_empty_false (encode_spec p2))
        by (apply encode_spec_nonempty; congruence).
      unfold encode_spec. rewrite filtered_joined_app, H1, H2, map_app.
      now apply concat_app_nonempty.
Qed.

Lemma string_forall_app P s1 s2 :
  string_forall P (s1 +:+ s2) = string_forall P s1 && string_forall P s2.
Proof.
  induction s1 as [|c s1 IH]; [reflexivity|].
  rewrite append_cons. cbn [string_forall]. now rewrite IH, andb_assoc.
Qed.

Lemma string_forall_concat P sep (l : list string) :
  string_forall P sep = true ->
  Forall (fun p => string_forall P p = true) l ->
  string_forall P (String.concat sep l) = true.
Proof.
  intros Hsep Hall. induction l as [|p l IH]; [reflexivity|].
  apply Forall_cons in Hall as [Hp Hall].
  destruct l as [|q l]; [exact Hp|].
  change (String.concat sep (p :: q :: l))
    with (p +:+ sep +:+ String.concat sep (q :: l)).
  now rewrite !string_forall_app, Hp, Hsep, IH.
Qed.

Lemma string_forall_contains P c s :
  string_forall P s = true -> P c = false -> contains c s = false.
Proof.
  intros Hs Hc. induction s as [|a s IH]; [reflexivity|].
  cbn [string_forall] in Hs. apply andb_true_iff in Hs as [Ha Hs].
  cbn [contains]. rewrite IH by exact Hs.
  destruct (Ascii.eqb_spec a c) as [->|_]; [congruence|reflexivity].
Qed.

Lemma encode_byte_query c : string_forall query_char (encode_byte c) = true.
Proof. each_byte c. Qed.

Lemma encode_query s : string_forall query_char (encodeURIComponent s) = true.
Proof.
  induction s as [|c s IH]; [reflexivity|].
  cbn [encodeURIComponent]. now rewrite string_forall_app, encode_byte_query.
Qed.

Lemma encode_pair_query k v : string_forall query_char (encode_pair k v) = true.
Proof.
  unfold encode_pair. now rewrite !string_forall_app, !encode_query.
Qed.

(** X4: a query string built by [urlParams] is made of unreserved
    characters, percent escapes and the separators [=] and [&] only; it
    holds no [?], [#], [/], space or [+], whatever the keys and values. *)
Theorem urlParams_alphabet (params : HttpParams) :
  string_forall query_char (urlParams params) = true
  /\ (forall c, query_char c = false -> contains c (urlParams params) = false)
  /\ contains "?" (urlParams params) = false
  /\ contains "#" (urlParams params) = false
  /\ contains "/" (urlParams params) = false
  /\ contains " " (urlParams params) = false
  /\ contains "+" (urlParams params) = false.
Proof.
  assert (Hall : string_forall query_char (urlParams params) = true).
  { unfold urlParams. apply string_forall_concat; [reflexivity|].
    apply Forall_map, Forall_forall. intros k _. apply encode_pair_query. }
  split; [exact Hall|].
  repeat split; try (intros c Hc);
    now apply (string_forall_contains query_char).
Qed.

(** X15: an array value encodes as the string of its elements joined
    with [,] would, as long as that string is not empty. An array whose
    joined form is empty is still sent, as [key=], where the empty string
    itself is dropped. *)
Theorem array_as_joined_string (p1 p2 : HttpParams) (k : string)
  (xs : list Scalar)
  (Hwf : Obj.wf (p1 ++ (k, PArray xs) :: p2))
  (Hne : String.concat "," (map String_scalar xs) <> "") :
  urlParams (p1 ++ (k, PArray xs) :: p2)
  = urlParams
      (p1 ++ (k, PScalar (Str (String.concat "," (map String_scalar xs))))
          :: p2)
  /\ urlParams [(k, PArray [])] = encodeURIComponent k +:+ "="
  /\ urlParams [(k, PArray [Str ""])] = encodeURIComponent k +:+ "="
  /\ urlParams [(k, PScalar (Str ""))] = "".
Proof.
  assert (Hwf1 : forall v : ParamValue, Obj.wf [(k, v)]).
  { intros v. apply NoDup_singleton. }
  split; [|rewrite !urlParams_encode_spec by apply Hwf1; unfold encode_spec,
             encode_pair; cbn; now rewrite append_empty_r].
  assert (Hwf' : Obj.wf
            (p1 ++ (k, PScalar (Str (String.concat ","
                                       (map String_scalar xs)))) :: p2)).
  { unfold Obj.wf in *. rewrite keys_app in *. exact Hwf. }
  rewrite !urlParams_encode_spec by assumption.
  unfold encode_spec. rewrite !filtered_joined_app, !filtered_joined_cons.
  cbn [joined_value String_scalar].
  destruct (String.concat "," (map String_scalar xs)); [congruence|reflexivity].
Qed.

(** ** More on the client *)

Ltac insert_lookups :=
  apply map_eq; intros ?;
  repeat (rewrite lookup_insert; case_decide); subst;
  try congruence; try reflexivity.

Lemma keeps_target_apply (ms : list Middleware) (rd : RequestData) :
  Forall keeps_target ms ->
  RequestData.path (apply_middlewares ms rd) = RequestData.path rd
  /\ RequestData.params (apply_middlewares ms rd) = RequestData.params rd.
Proof.
  intros Hms. revert rd.
  induction Hms as [|m ms Hm _ IH]; intros rd; [now split|].
  cbn [apply_middlewares]. destruct (IH (m rd)) as [-> ->]. apply Hm.
Qed.

Lemma keys_spread {V} (target src : Obj.t V) :
  Obj.wf src ->
  Obj.keys (Obj.spread target src)
  = Obj.keys target ++ List.filter (new_key target) (Obj.keys src).
Proof.
  unfold Obj.spread, Obj.wf. revert target.
  induction src as [|[k v] src IH]; intros target Hwf; simpl.
  - now rewrite app_nil_r.
  - apply NoDup_cons in Hwf as [Hk Hwf].
    rewrite IH by exact Hwf. rewrite keys_set.
    assert (Hnew : new_key target k
                   = match Obj.get k target with
                     | Some _ => false
                     | None => true
                     end).
    { unfold new_key. destruct (Obj.get k target) eqn:Hg.
      - apply negb_false_iff, existsb_exists. exists k.
        split; [|apply String.eqb_refl].
        destruct (List.in_dec String.string_dec k (Obj.keys target)) as [|Hn];
          [assumption|].
        apply get_None_notin in Hn. congruence.
      - apply negb_true_iff. apply not_true_is_false. intros Hex.
        apply existsb_exists in Hex as (k' & Hin & Heq).
        apply String.eqb_eq in Heq as <-.
        now apply get_None_notin in Hg. }
    rewrite Hnew. destruct (Obj.get k target) eqn:Hg.
    + f_equal. apply List.filter_ext_in. intros k' _. unfold new_key.
      now rewrite keys_set, Hg.
    + rewrite <- app_assoc. simpl. do 2 f_equal.
      apply List.filter_ext_in. intros k' Hin. unfold new_key.
      rewrite keys_set, Hg, existsb_app. simpl.
      destruct (String.eqb_spec k' k) as [->|_]; [|now rewrite !orb_false_r].
      exfalso. apply Hk. now apply list_elem_of_In.
Qed.

Section MoreClientFacts.
Context `{Runtime}.
Implicit Types (this : DashAPI) (fetch : Fetch) (path method : string).
Implicit Types (conf : option ApiRequestConfig) (response : Response).

Lemma request_options_method this (m1 m2 : string) conf :
  request_options this m2 conf
  = <["method" := OStr m2]> (request_options this m1 conf).
Proof.
  unfold request_options.
  destruct (config_body conf); [|destruct (config_formBody conf)];
    insert_lookups.
Qed.

Lemma legacy_options_cors this method conf :
  config this = None ->
  legacy_request_options method conf
  = <["credentials" := OStr "include"]>
      (<["mode" := OStr "cors"]> (request_options this method conf)).
Proof.
  intros Hc. unfold legacy_request_options, request_options, base_options.
  rewrite Hc.
  destruct (config_body conf); [|destruct (config_formBody conf)];
    insert_lookups.
Qed.

(** X5: parameters that are all null, undefined or empty leave the URL
    of [getUrl] as it is without parameters, with no [?]; as soon as one
    value is kept the URL ends with [?] and a non-empty query string. *)
Theorem getUrl_query_suffix this path (p : HttpParams) (Hwf : Obj.wf p) :
  (Forall (fun kv => is_empty_param (snd kv) = true) p ->
   getUrl this path (Some p) = getUrl this path None)
  /\ (Exists (fun kv => is_empty_param (snd kv) = false) p ->
      urlParams p <> ""
      /\ getUrl this path (Some p)
         = getUrl this path None +:+ "?" +:+ urlParams p).
Proof.
  split.
  - intros Hall. apply filtered_joined_nil in Hall.
    unfold getUrl. rewrite urlParams_encode_spec by exact Hwf.
    unfold encode_spec. now rewrite Hall.
  - intros Hex.
    assert (Hne : urlParams p <> "").
    { rewrite urlParams_encode_spec by exact Hwf.
      apply encode_spec_nonempty. intros Hnil.
      apply filtered_joined_nil in Hnil.
      apply List.Exists_exists in Hex as (kv & Hin & Hkv).
      rewrite List.Forall_forall in Hnil. specialize (Hnil kv Hin).
      congruence. }
    split; [exact Hne|]. unfold getUrl.
    rewrite (eqb_empty_false _ Hne). now rewrite !append_empty_r.
Qed.

(** X6: registering two middlewares one after the other is registering
    their composition, and registering the identity changes nothing: the
    call sent and its outcome are the same. *)
Theorem middlewares_compose this fetch path method conf (m1 m2 : Middleware) :
  request (addMiddleware (addMiddleware this m1) m2) fetch path method conf
  = request (addMiddleware this (fun rd => m2 (m1 rd))) fetch path method conf
  /\ request (addMiddleware this (fun rd => rd)) fetch path method conf
     = request this fetch path method conf.
Proof.
  unfold request. cbn [middlewares addMiddleware].
  rewrite !apply_middlewares_snoc. split; reflexivity.
Qed.

(** X7: middlewares that leave path and params alone, as
    [CorsMiddleware] and the header middlewares do, never change the URL
    of the call: it is [getUrl] of the path and params the caller gave. *)
Theorem options_middlewares_keep_url this fetch path method conf
  (Hms : Forall keeps_target (middlewares this)) :
  call_url (sent (request this fetch path method conf))
  = getUrl this path (config_params conf)
  /\ keeps_target CorsMiddleware
  /\ (forall extra, keeps_target (headers_middleware extra)).
Proof.
  split; [|split; intros; split; reflexivity].
  rewrite request_sent. cbn zeta. cbn [call_url].
  now destruct (keeps_target_apply (middlewares this)
                  (initial_requestData this path method conf) Hms) as [-> ->].
Qed.

(** X9: two clients that differ in their [errorHandler] only send the
    same call, and end the same way whenever the response status is
    within 200..299: the handler is kept for the other statuses. *)
Theorem success_ignores_errorHandler (b : string) (o : option RequestInit)
  (ms : list Middleware) (h1 h2 : option ErrorHandler)
  fetch path method conf response
  (Hfetch :
     fetch
       (call_url (sent (request
          {| baseUrl := b;
             config := Some {| errorHandler := h1; cfg_options := o |};
             middlewares := ms |} fetch path method conf)))
       (call_options (sent (request
          {| baseUrl := b;
             config := Some {| errorHandler := h1; cfg_options := o |};
             middlewares := ms |} fetch path method conf)))
     = Resolved response)
  (Hstatus : 200 <= status response <= 299) :
  sent (request
          {| baseUrl := b;
             config := Some {| errorHandler := h1; cfg_options := o |};
             middlewares := ms |} fetch path method conf)
  = sent (request
            {| baseUrl := b;
               config := Some {| errorHandler := h2; cfg_options := o |};
               middlewares := ms |} fetch path method conf)
  /\ outcome (request
                {| baseUrl := b;
                   config := Some {| errorHandler := h1; cfg_options := o |};
                   middlewares := ms |} fetch path method conf)
     = outcome (request
                  {| baseUrl := b;
                     config := Some {| errorHandler := h2; cfg_options := o |};
                     middlewares := ms |} fetch path method conf).
Proof.
  split; [reflexivity|].
  rewrite !request_outcome.
  change (sent (request
            {| baseUrl := b;
               config := Some {| errorHandler := h2; cfg_options := o |};
               middlewares := ms |} fetch path method conf))
    with (sent (request
            {| baseUrl := b;
               config := Some {| errorHandler := h1; cfg_options := o |};
               middlewares := ms |} fetch path method conf)).
  rewrite Hfetch.
  destruct (Z.eq_dec (status response) 204) as [H204|H204].
  - now rewrite !dispatch_204.
  - now rewrite !dispatch_2xx.
Qed.

(** X10: the verb of a call reaches its options in the [method] field
    and nowhere else; on a client without middlewares [put] and [patch]
    send what [post] sends, and [delete] what [get] sends, but for
    [method]. *)
Theorem verbs_differ_in_method_only this fetch path (body : Json)
  (params : option HttpParams) (Hms : middlewares this = []) :
  (forall m1 m2 conf,
     request_options this m2 conf
     = <["method" := OStr m2]> (request_options this m1 conf))
  /\ sent (put this fetch path body params)
     = {| call_url := call_url (sent (post this fetch path body params));
          call_options :=
            <["method" := OStr "PUT"]>
              (call_options (sent (post this fetch path body params))) |}
  /\ sent (patch this fetch path body params)
     = {| call_url := call_url (sent (post this fetch path body params));
          call_options :=
            <["method" := OStr "PATCH"]>
              (call_options (sent (post this fetch path body params))) |}
  /\ sent (delete this fetch path params)
     = {| call_url := call_url (sent (get this fetch path params));
          call_options :=
            <["method" := OStr "DELETE"]>
              (call_options (sent (get this fetch path params))) |}.
Proof.
  split; [intros; apply request_options_method|].
  unfold put, patch, post, delete, get. rewrite !request_sent, Hms.
  cbn [apply_middlewares call_url call_options initial_requestData
       RequestData.path RequestData.params RequestData.options].
  repeat split; f_equal; apply request_options_method.
Qed.
(** X11: when no key of the resource defaults or of the caller is made
    of digits only (so none is an array index), the keys of the params
    [list] sends are the keys of the defaults, in their order, followed by
    the keys only the caller has, in the caller's order; a key of both
    keeps the place it has in the defaults. Without caller params the
    merge is the defaults, and without defaults it is the caller's
    params. *)
Theorem mergeParams_keys (r : DashResource) (p : option HttpParams)
  (Hd : Obj.wf (or_empty (res_params r))) (Hp : Obj.wf (or_empty p))
  (Hnames : Forall (fun k => digits_only k = false)
              (Obj.keys (or_empty (res_params r)) ++ Obj.keys (or_empty p))) :
  Obj.keys (mergeParams r p)
  = Obj.keys (or_empty (res_params r))
    ++ List.filter (new_key (or_empty (res_params r))) (Obj.keys (or_empty p))
  /\ mergeParams r None = or_empty (res_params r)
  /\ (res_params r = None -> mergeParams r p = or_empty p).
Proof.
  unfold mergeParams. rewrite (spread_nil _ Hd). split; [|split].
  - now apply keys_spread.
  - reflexivity.
  - intros Hnone. rewrite Hnone. now apply (spread_nil (or_empty p)).
Qed.

(** X12: a caller of [list] removes a default parameter from the query
    by passing null, undefined or the empty string for its key. *)
Theorem list_param_suppressed (r : DashResource) (p : option HttpParams)
  (k : string) (v : ParamValue)
  (Hd : Obj.wf (or_empty (res_params r))) (Hp : Obj.wf (or_empty p))
  (Hget : Obj.get k (or_empty p) = Some v)
  (Hempty : is_empty_param v = true) :
  Obj.get k (concatedParams (mergeParams r p)) = None
  /\ ~ In k (Obj.keys (concatedParams (mergeParams r p))).
Proof.
  assert (Hnone : Obj.get k (concatedParams (mergeParams r p)) = None).
  { assert (Hwf : Obj.wf (mergeParams r p)).
    { unfold mergeParams. apply wf_spread, wf_spread. constructor. }
    rewrite concatedParams_filtered_joined, get_filtered_joined by exact Hwf.
    rewrite mergeParams_get, Hget by assumption.
    now apply joined_value_empty. }
  split; [exact Hnone|]. now apply get_None_notin.
Qed.

(** X13: [CorsMiddleware] sets [mode] to [cors] and [credentials] to
    [include] and touches nothing else: path, params and every other
    option are kept; applying it twice is applying it once, and it
    commutes with a header middleware. *)
Theorem CorsMiddleware_frame (rd : RequestData) :
  CorsMiddleware (CorsMiddleware rd) = CorsMiddleware rd
  /\ RequestData.path (CorsMiddleware rd) = RequestData.path rd
  /\ RequestData.params (CorsMiddleware rd) = RequestData.params rd
  /\ RequestData.options (CorsMiddleware rd) !! "mode" = Some (OStr "cors")
  /\ RequestData.options (CorsMiddleware rd) !! "credentials"
     = Some (OStr "include")
  /\ (forall k, k <> "mode" -> k <> "credentials" ->
        RequestData.options (CorsMiddleware rd) !! k
        = RequestData.options rd !! k)
  /\ (forall extra,
        CorsMiddleware (headers_middleware extra rd)
        = headers_middleware extra (CorsMiddleware rd)).
Proof.
  split; [|split; [reflexivity|split; [reflexivity|split; [|split; [|split]]]]].
  - unfold CorsMiddleware. cbn. f_equal. insert_lookups.
  - unfold CorsMiddleware. cbn.
    now rewrite lookup_insert_ne, lookup_insert_eq by discriminate.
  - unfold CorsMiddleware. cbn. apply lookup_insert_eq.
  - intros k Hm Hc. unfold CorsMiddleware. cbn.
    now rewrite !lookup_insert_ne by congruence.
  - intros extra. unfold CorsMiddleware, headers_middleware, headers_of. cbn.
    rewrite !lookup_insert_ne by discriminate. f_equal. insert_lookups.
Qed.

(** X14: the client of the first release, which fixed [mode: cors] and
    [credentials: include] in [request], is the present client built
    without configuration and given [CorsMiddleware]: both send the same
    call and end the same way. *)
Theorem legacy_client_is_cors_client (b : option string) fetch path method
  conf :
  legacy_request (LegacyAPI_new b) fetch path method conf
  = request (addMiddleware (DashAPI_new b None) CorsMiddleware)
      fetch path method conf.
Proof.
  unfold legacy_request, request.
  cbn [middlewares addMiddleware DashAPI_new app apply_middlewares sent outcome
       call_url call_options].
  rewrite (legacy_options_cors (DashAPI_new b None) method conf eq_refl).
  reflexivity.
Qed.

(** X16: on a client without middlewares every method of a resource
    calls the URL of its REST path, each ending with [/], with its verb:
    [create] POSTs to [name/]; [update], [patch] and [delete] PUT, PATCH
    and DELETE [name/id/]; [getAction] and [postAction] GET and POST
    [name/action/]; [getDetailAction] and [postDetailAction] GET and POST
    [name/id/action/]; [postForm] POSTs to [name/action/]. *)
Theorem resource_paths (r : DashResource) this fetch (id : Scalar)
  (object body : Json) (action : string) (formBody : ApiRequestFormBody)
  (params : option HttpParams) (Hms : middlewares this = []) :
  (call_url (sent (create r this fetch object))
   = baseUrl this +:+ "/" +:+ name r +:+ "/"
   /\ call_options (sent (create r this fetch object)) !! "method"
      = Some (OStr "POST"))
  /\ (call_url (sent (update r this fetch id object))
      = baseUrl this +:+ "/" +:+ name r +:+ "/" +:+ String_scalar id +:+ "/"
      /\ call_options (sent (update r this fetch id object)) !! "method"
         = Some (OStr "PUT"))
  /\ (call_url (sent (DashResource_patch r this fetch id object))
      = baseUrl this +:+ "/" +:+ name r +:+ "/" +:+ String_scalar id +:+ "/"
      /\ call_options (sent (DashResource_patch r this fetch id object))
           !! "method" = Some (OStr "PATCH"))
  /\ (call_url (sent (DashResource_delete r this fetch id))
      = baseUrl this +:+ "/" +:+ name r +:+ "/" +:+ String_scalar id +:+ "/"
      /\ call_options (sent (DashResource_delete r this fetch id)) !! "method"
         = Some (OStr "DELETE"))
  /\ (call_url (sent (getAction r this fetch action params))
      = getUrl this (name r +:+ "/" +:+ action +:+ "/") params
      /\ call_options (sent (getAction r this fetch action params)) !! "method"
         = Some (OStr "GET"))
  /\ (call_url (sent (postAction r this fetch action body params))
      = getUrl this (name r +:+ "/" +:+ action +:+ "/") params
      /\ call_options (sent (postAction r this fetch action body params))
           !! "method" = Some (OStr "POST"))
  /\ (call_url (sent (getDetailAction r this fetch action id params))
      = getUrl this
          (name r +:+ "/" +:+ String_scalar id +:+ "/" +:+ action +:+ "/")
          params
      /\ call_options (sent (getDetailAction r this fetch action id params))
           !! "method" = Some (OStr "GET"))
  /\ (call_url (sent (postDetailAction r this fetch action id body params))
      = getUrl this
          (name r +:+ "/" +:+ String_scalar id +:+ "/" +:+ action +:+ "/")
          params
      /\ call_options
           (sent (postDetailAction r this fetch action id body params))
           !! "method" = Some (OStr "POST"))
  /\ (call_url (sent (DashResource_postForm r this fetch action formBody
                        params))
      = getUrl this (name r +:+ "/" +:+ action +:+ "/") params
      /\ call_options
           (sent (DashResource_postForm r this fetch action formBody params))
           !! "method" = Some (OStr "POST")).
Proof.
  assert (Hmethod : forall m conf,
            request_options this m conf !! "method" = Some (OStr m)).
  { intros m conf. rewrite (request_options_method this "" m conf).
    apply lookup_insert_eq. }
  unfold create, update, DashResource_patch, DashResource_delete, getAction,
    postAction, getDetailAction, postDetailAction, DashResource_postForm,
    post, put, patch, delete, get, postForm.
  rewrite !request_sent, Hms.
  cbn [apply_middlewares call_url call_options initial_requestData
       RequestData.path RequestData.params RequestData.options
       config_params cfg_params params_config].
  rewrite !Hmethod.
  repeat split; unfold getUrl; rewrite append_empty_r, ?append_assoc;
    reflexivity.
Qed.
End MoreClientFacts.

(** ** The theorems at the values of the test-suite *)

#[local] Existing Instance text_runtime.

Ltac wf_by_computation := apply (bool_decide_unpack _); vm_compute; exact I.

Lemma request_status_dispatch_witness :
  outcome (request (api_with_handler rejecting_handler)
             (fetch_answering 400 "{}") "path" "POST" None)
  = Rejected (OfString "Invalid data").
Proof.
  destruct (request_status_dispatch (api_with_handler rejecting_handler)
              (fetch_answering 400 "{}") "path" "POST" None
              {| status := 400; body_text := "{}" |} eq_refl)
    as (_ & _ & Herr).
  destruct Herr as [Hhandler _]; [simpl; lia|].
  exact (Hhandler rejecting_handler eq_refl).
Defined.

Lemma request_error_rejected_witness :
  outcome (request (api_with_handler rejecting_handler)
             (fetch_answering 400 "{}") "path" "POST" None)
  = Rejected (OfString "Invalid data")
  /\ is_rejected
       (outcome (request (api_with_handler rejecting_handler)
                   (fetch_answering 400 "{}") "path" "POST" None)) = true
  /\ outcome (request (api_with_handler resolving_handler)
                (fetch_answering 500 "oops") "path" "GET" None)
     = resolving_handler {| status := 500; body_text := "oops" |}.
Proof.
  assert (Hstatus :
            status {| status := 400; body_text := "{}" |} <> 204
            /\ ~ 200 <= status {| status := 400; body_text := "{}" |} <= 299)
    by (simpl; lia).
  assert (Hstatus' :
            status {| status := 500; body_text := "oops" |} <> 204
            /\ ~ 200 <= status {| status := 500; body_text := "oops" |} <= 299)
    by (simpl; lia).
  destruct (request_error_rejected (api_with_handler rejecting_handler)
              (fetch_answering 400 "{}") "path" "POST" None
              {| status := 400; body_text := "{}" |} eq_refl Hstatus)
    as (_ & Hhandler & Hrejected).
  destruct (request_error_rejected (api_with_handler resolving_handler)
              (fetch_answering 500 "oops") "path" "GET" None
              {| status := 500; body_text := "oops" |} eq_refl Hstatus')
    as (_ & Hhandler' & _).
  split; [exact (Hhandler rejecting_handler eq_refl)|].
  split; [|exact (Hhandler' resolving_handler eq_refl)].
  apply Hrejected. intros handler [= <-]. reflexivity.
Defined.

(** A handler that resolves, or whose promise never settles, leaves a
    call answered with status 500 not rejected. *)
Lemma error_not_rejected :
  status {| status := 500; body_text := "oops" |} <> 204
  /\ ~ 200 <= status {| status := 500; body_text := "oops" |} <= 299
  /\ outcome (request (api_with_handler resolving_handler)
                (fetch_answering 500 "oops") "path" "GET" None)
     = Resolved Undefined
  /\ is_rejected
       (outcome (request (api_with_handler resolving_handler)
                   (fetch_answering 500 "oops") "path" "GET" None)) = false
  /\ is_rejected
       (outcome (request (api_with_handler silent_handler)
                   (fetch_answering 500 "oops") "path" "GET" None)) = false.
Proof. simpl. repeat split; try reflexivity; lia. Qed.

Lemma getUrl_base_path_witness :
  baseUrl (DashAPI_new (Some "https://server/") None) = "https://server"
  /\ single_separator (baseUrl (DashAPI_new (Some "https://server/") None))
       "path" = true
  /\ getUrl (DashAPI_new (Some "https://server/") None) "path"
       (Some [("a", PScalar (Num 1)); ("b", PScalar (Str "2"))])
     = "https://server/path?a=1&b=2".
Proof.
  destruct (getUrl_base_path "https://server/" None "path")
    as (Hstrip & _ & _ & Hqs & Hsep & _).
  split; [exact (Hstrip "https://server" eq_refl)|].
  split; [exact (Hsep eq_refl eq_refl)|].
  exact (Hqs [("a", PScalar (Num 1)); ("b", PScalar (Str "2"))]).
Defined.

(** A path that begins with a separator, or a base URL that ends with two,
    leaves two separators between base and path. *)
Lemma getUrl_double_separator :
  getUrl (DashAPI_new (Some "https://server/") None) "/books/" None
  = "https://server//books/"
  /\ single_separator (baseUrl (DashAPI_new (Some "https://server/") None))
       "/books/" = false
  /\ getUrl (DashAPI_new (Some "https://server//") None) "books/" None
     = "https://server//books/"
  /\ single_separator (baseUrl (DashAPI_new (Some "https://server//") None))
       "books/" = false.
Proof. repeat split; reflexivity. Qed.

Lemma request_body_encoding_witness :
  request_options test_api "POST"
    (Some {| cfg_params := None; cfg_body := Some test_body;
             cfg_formBody := Some test_formBody; cfg_form := None |})
  = <["headers" := OHeaders {[ "Content-Type" := "application/json" ]}]>
      (<["body" := OStr (JSON_stringify test_body)]>
         (<["method" := OStr "POST"]> (base_options test_api)))
  /\ Obj.wf test_formBody
  /\ request_options test_api "POST" (Some (form_config test_formBody None))
     = <["headers" := OHeaders ∅]>
         (<["body" := OForm
              [TextEntry "name" "nameValue";
               FileEntry "file"
                 {| blob_bytes := "test"; blob_type := "text/plain" |}
                 "filenameValue"]]>
            (<["method" := OStr "POST"]> (base_options test_api))).
Proof.
  assert (Hwf : Obj.wf test_formBody) by wf_by_computation.
  split; [|split; [exact Hwf|]].
  - destruct (request_body_encoding test_api "POST"
                {| cfg_params := None; cfg_body := Some test_body;
                   cfg_formBody := Some test_formBody; cfg_form := None |})
      as (Hjson & _).
    exact (Hjson test_body eq_refl).
  - destruct (request_body_encoding test_api "POST"
                (form_config test_formBody None)) as (_ & Hform & _).
    exact (Hform test_formBody eq_refl eq_refl Hwf).
Defined.



Lemma form_flag_ignored_witness :
  request test_api (fetch_answering 200 "{}") "path" "POST"
    (Some (form_config test_formBody (Some true)))
  = request test_api (fetch_answering 200 "{}") "path" "POST"
      (Some (form_config test_formBody None)).
Proof.
  exact (proj1 (proj2 (form_flag_ignored test_api (fetch_answering 200 "{}")
                         "path" "POST"
                         (form_config test_formBody (Some true))
                         (form_config test_formBody None)
                         eq_refl eq_refl eq_refl))).
Defined.

Lemma middlewares_in_registration_order_witness :
  headers_of
    (call_options
       (sent (request
                (addMiddleware
                   (addMiddleware test_api (headers_middleware test_headers1))
                   (headers_middleware test_headers2))
                (fetch_answering 200 "{}") "path" "POST"
                (Some (json_config test_body)))))
  !! "X-Test" = Some "b".
Proof.
  assert (Ha : test_headers1 !! "X-Test" = Some "a")
    by (vm_compute; reflexivity).
  assert (Hb : test_headers2 !! "X-Test" = Some "b")
    by (vm_compute; reflexivity).
  exact (proj1 (proj2 (proj2 (proj2
           (middlewares_in_registration_order test_api
              (fetch_answering 200 "{}") "path" "POST"
              (Some (json_config test_body))
              test_headers1 test_headers2 "X-Test" "a" "b" Ha Hb))))).
Defined.

Lemma resource_list_retrieve_witness :
  Obj.get "page" (mergeParams book_resource (Some caller_params))
  = Some (PScalar (Num 2))
  /\ Obj.get "lang" (mergeParams book_resource (Some caller_params))
     = Some (PScalar (Str "en")).
Proof.
  assert (Hd : Obj.wf (or_empty (res_params book_resource)))
    by wf_by_computation.
  assert (Hp : Obj.wf (or_empty (Some caller_params))) by wf_by_computation.
  destruct (resource_list_retrieve book_resource test_api
              (fetch_answering 200 "[]") (Some caller_params) (Num 1) Hd Hp)
    as (_ & Hmerge & _).
  split; [exact (Hmerge "page")|exact (Hmerge "lang")].
Defined.

(** ** Expectations of the test-suite *)

Example urlParams_keeps_zero_and_empty_array :
  urlParams [("a", PScalar (Num 0)); ("b", PArray []); ("", PArray [Str ""; Str ""])]
  = "a=0&b=&=%2C".
Proof. reflexivity. Qed.

Example getUrl_with_params :
  getUrl test_api "path"
    (Some [("a", PScalar (Num 1)); ("b", PScalar (Str "2"))])
  = "https://server/path?a=1&b=2".
Proof. reflexivity. Qed.

Example request_calls_middlewares :
  sent (request
          (addMiddleware
             (addMiddleware test_api (headers_middleware test_headers1))
             (headers_middleware test_headers2))
          (fetch_answering 200 "{}") "path" "POST" (Some (json_config test_body)))
  = {| call_url := "https://server/path";
       call_options :=
         {[ "method" := OStr "POST";
            "headers" := OHeaders {[ "Content-Type" := "application/json";
                                     "X-Test" := "b";
                                     "X-CSRFToken" := "abcdefg" ]};
            "body" := OStr (JSON_stringify test_body) ]} |}.
Proof. vm_compute. reflexivity. Qed.

Example CorsMiddleware_sets_mode_and_credentials :
  RequestData.options
    (CorsMiddleware {| RequestData.path := "/api";
                       RequestData.params := None;
                       RequestData.options := {[ "headers" := OHeaders ∅ ]} |})
  = {[ "headers" := OHeaders ∅; "mode" := OStr "cors";
       "credentials" := OStr "include" ]}.
Proof. vm_compute. reflexivity. Qed.

Example resource_list_url :
  call_url (sent (list_ (createResource "book" None) test_api
                    (fetch_answering 200 "[]")
                    (Some [("params", PScalar (Str "params"))])))
  = "https://server/book/?params=params".
Proof. reflexivity. Qed.

Example resource_retrieve_url :
  call_url (sent (retrieve (createResource "book" None) test_api
                    (fetch_answering 200 "{}") (Num 1)))
  = "https://server/book/1/".
Proof. reflexivity. Qed.

Example request_204_is_undefined :
  outcome (request test_api (fetch_answering 204 "") "path" "POST" None)
  = Resolved Undefined.
Proof. reflexivity. Qed.

Example request_400_rejects_with_response :
  outcome (request test_api (fetch_answering 400 "{}") "path" "POST" None)
  = Rejected (OfResponse {| status := 400; body_text := "{}" |}).
Proof. reflexivity. Qed.

(** ** The further theorems at concrete values *)

Lemma concatedParams_lookup_witness :
  Obj.wf test_params
  /\ Obj.get "c" (concatedParams test_params) = Some "3,4,5".
Proof.
  split; [exact test_params_wf|].
  exact (proj2 (concatedParams_lookup test_params "c" test_params_wf)
           [Num 3; Num 4; Num 5] eq_refl).
Defined.

Lemma urlParams_drops_empty_witness :
  Obj.wf test_params
  /\ urlParams test_params
     = urlParams
         (List.filter (fun kv => negb (is_empty_param (snd kv))) test_params).
Proof.
  split; [exact test_params_wf|].
  exact (urlParams_drops_empty test_params test_params_wf).
Defined.

Lemma urlParams_app_witness :
  urlParams ([("a", PScalar (Num 1))] ++ [("e", PNull); ("b", PArray [Str "x"])])
  = join_query (urlParams [("a", PScalar (Num 1))])
      (urlParams [("e", PNull); ("b", PArray [Str "x"])]).
Proof.
  apply urlParams_app. wf_by_computation.
Defined.

Lemma urlParams_alphabet_witness :
  query_char "?" = false /\ contains "?" (urlParams test_params) = false.
Proof.
  split; [reflexivity|].
  exact (proj1 (proj2 (urlParams_alphabet test_params)) "?"%char eq_refl).
Defined.

Lemma array_as_joined_string_witness :
  urlParams ([] ++ [("c", PArray [Num 3; Num 4; Num 5])])
  = urlParams ([] ++ [("c", PScalar (Str "3,4,5"))]).
Proof.
  refine (proj1 (array_as_joined_string [] [] "c" [Num 3; Num 4; Num 5] _ _)).
  - wf_by_computation.
  - vm_compute. discriminate.
Defined.

Lemma getUrl_query_suffix_witness :
  getUrl test_api "path" (Some [("e", PNull); ("a", PScalar (Num 1))])
  = getUrl test_api "path" None +:+ "?"
    +:+ urlParams [("e", PNull); ("a", PScalar (Num 1))].
Proof.
  refine (proj2 (proj2 (getUrl_query_suffix test_api "path"
                          [("e", PNull); ("a", PScalar (Num 1))] _) _)).
  - wf_by_computation.
  - apply Exists_cons_tl, Exists_cons_hd. reflexivity.
Defined.

Lemma options_middlewares_keep_url_witness :
  call_url
    (sent (request
             (addMiddleware (addMiddleware test_api CorsMiddleware)
                (headers_middleware test_headers1))
             (fetch_answering 200 "{}") "path" "GET" None))
  = getUrl
      (addMiddleware (addMiddleware test_api CorsMiddleware)
         (headers_middleware test_headers1))
      "path" None.
Proof.
  refine (proj1 (options_middlewares_keep_url
                   (addMiddleware (addMiddleware test_api CorsMiddleware)
                      (headers_middleware test_headers1))
                   (fetch_answering 200 "{}") "path" "GET" None _)).
  cbn [middlewares addMiddleware test_api DashAPI_new app].
  apply Forall_cons; split; [intros rd; split; reflexivity|].
  apply Forall_cons; split; [intros rd; split; reflexivity|].
  apply Forall_nil. exact I.
Defined.

Lemma success_ignores_errorHandler_witness :
  outcome (request
             {| baseUrl := "https://server";
                config := Some {| errorHandler := Some rejecting_handler;
                                  cfg_options := None |};
                middlewares := [] |}
             (fetch_answering 200 "{}") "path" "GET" None)
  = outcome (request
               {| baseUrl := "https://server";
                  config := Some {| errorHandler := None;
                                    cfg_options := None |};
                  middlewares := [] |}
               (fetch_answering 200 "{}") "path" "GET" None).
Proof.
  refine (proj2 (success_ignores_errorHandler "https://server" None []
                   (Some rejecting_handler) None (fetch_answering 200 "{}")
                   "path" "GET" None {| status := 200; body_text := "{}" |}
                   eq_refl _)).
  simpl. lia.
Defined.

Lemma verbs_differ_in_method_only_witness :
  sent (delete test_api (fetch_answering 204 "") "path" None)
  = {| call_url :=
         call_url (sent (get test_api (fetch_answering 204 "") "path" None));
       call_options :=
         <["method" := OStr "DELETE"]>
           (call_options
              (sent (get test_api (fetch_answering 204 "") "path" None))) |}.
Proof.
  exact (proj2 (proj2 (proj2
           (verbs_differ_in_method_only test_api (fetch_answering 204 "")
              "path" test_body None eq_refl)))).
Defined.

Lemma mergeParams_keys_witness :
  Obj.keys (mergeParams book_resource (Some caller_params))
  = ["page"; "lang"; "params"].
Proof.
  assert (Hd : Obj.wf (or_empty (res_params book_resource)))
    by wf_by_computation.
  assert (Hp : Obj.wf (or_empty (Some caller_params))) by wf_by_computation.
  assert (Hnames : Forall (fun k => digits_only k = false)
                     (Obj.keys (or_empty (res_params book_resource))
                      ++ Obj.keys (or_empty (Some caller_params))))
    by (repeat constructor).
  exact (proj1 (mergeParams_keys book_resource (Some caller_params)
                  Hd Hp Hnames)).
Defined.

Lemma list_param_suppressed_witness :
  Obj.get "page"
    (concatedParams (mergeParams book_resource (Some [("page", PNull)])))
  = None.
Proof.
  assert (Hd : Obj.wf (or_empty (res_params book_resource)))
    by wf_by_computation.
  assert (Hp : Obj.wf (or_empty (Some [("page", PNull)])))
    by wf_by_computation.
  exact (proj1 (list_param_suppressed book_resource (Some [("page", PNull)])
                  "page" PNull Hd Hp eq_refl eq_refl)).
Defined.

Lemma CorsMiddleware_frame_witness :
  RequestData.options
    (CorsMiddleware (initial_requestData test_api "path" "GET" None))
    !! "headers"
  = RequestData.options (initial_requestData test_api "path" "GET" None)
      !! "headers".
Proof.
  destruct (CorsMiddleware_frame
              (initial_requestData test_api "path" "GET" None))
    as (_ & _ & _ & _ & _ & Hframe & _).
  apply Hframe; discriminate.
Defined.

Lemma resource_paths_witness :
  call_url (sent (update book_resource test_api (fetch_answering 200 "{}")
                    (Num 1) test_body))
  = baseUrl test_api +:+ "/" +:+ name book_resource +:+ "/"
    +:+ String_scalar (Num 1) +:+ "/".
Proof.
  destruct (resource_paths book_resource test_api (fetch_answering 200 "{}")
              (Num 1) test_body test_body "barcode" test_formBody None eq_refl)
    as (_ & [Hurl _] & _).
  exact Hurl.
Defined.

Example legacy_request_options_of_get :
  sent (legacy_request (LegacyAPI_new (Some "https://server"))
          (fetch_answering 200 "{}") "path" "GET" None)
  = {| call_url := "https://server/path";
       call_options := {[ "method" := OStr "GET"; "mode" := OStr "cors";
                          "headers" := OHeaders ∅;
                          "credentials" := OStr "include" ]} |}.
Proof. vm_compute. reflexivity. Qed.
